(** * Bedrock gateway client: configuration, endpoint and response handling

    A shallow embedding of [bedrock_gateway_client/config.py] and
    [bedrock_gateway_client/client.py].  Python values that the client only
    passes around (decoded JSON documents) are kept as a small universe of
    dynamically typed values, with the Python operators the client applies to
    them ([in], subscripting, [.get], iteration) written out together with
    the exception each raises on a value of the wrong type.

    Two functions of the Python standard library are collaborators of the
    client and are taken as parameters of the development: the authority
    split of [urllib.parse.urlparse] and the JSON reader ([json.loads],
    [Response.json]).  A reference instance of each is given first, so that
    every definition can be run on concrete inputs. *)

From Stdlib Require Import ZArith String Ascii List Bool Lia.
From stdpp Require Import base option strings gmap.
Import ListNotations.

Local Open Scope string_scope.
Local Open Scope Z_scope.

(** ** Python values *)

(** A decoded JSON document, as [json.loads] returns it: [None], [bool],
    [int], [float], [str], [list] and [dict].  A [dict] keeps its insertion
    order, which iteration exposes, so it is an association list; the reader
    never produces a repeated key.  A [float] is carried as its IEEE-754
    binary64 bit pattern: the client never computes with one. *)
#[local] Set Warnings "-register-all".
Inductive json : Type :=
| JNull
| JBool (b : bool)
| JInt (n : Z)
| JFloat (bits : Z)
| JStr (s : string)
| JList (items : list json)
| JDict (fields : list (string * json)).

(** The exceptions the modelled code raises.  [GatewayError] is the plain
    [Exception] of [_send_request], whose message is
    [f"Gateway error ({status_code}): {error_detail}"]; it is kept as the two
    values the message is formatted from. *)
Inductive exn : Type :=
| ValueError (msg : string)
| TypeError
| AttributeError
| KeyError (key : string)
| JSONDecodeError
| YAMLError
| GatewayError (status_code : Z) (error_detail : json).

Definition is_gateway_error (e : exn) : bool :=
  match e with
  | GatewayError _ _ => true
  | _ => false
  end.

Inductive outcome (A : Type) : Type :=
| Ok (a : A)
| Raise (e : exn).
Arguments Ok {A} a.
Arguments Raise {A} e.

#[global] Instance outcome_ret : MRet outcome := fun _ a => Ok a.
#[global] Instance outcome_bind : MBind outcome := fun _ _ f m =>
  match m with
  | Ok a => f a
  | Raise e => Raise e
  end.

(** [try: m except: h] with a bare [except]. *)
Definition try_except {A} (m : outcome A) (h : A) : A :=
  match m with
  | Ok a => a
  | Raise _ => h
  end.

Definition quote : string := String "034"%char "".
Definition nl : string := String "010"%char "".

(** Truth value of an [Optional[str]]: [None] and [''] are false.
    [nonempty] keeps the string of a true one. *)
Definition nonempty (o : option string) : option string :=
  match o with
  | None => None
  | Some s => if String.eqb s "" then None else Some s
  end.

Definition truthy (o : option string) : bool :=
  match nonempty o with
  | Some _ => true
  | None => false
  end.

(** [str.lower()] on ASCII text. *)
Definition lower_char (c : ascii) : ascii :=
  let n := nat_of_ascii c in
  if ((65 <=? n) && (n <=? 90))%nat then ascii_of_nat (n + 32) else c.

Fixpoint lower (s : string) : string :=
  match s with
  | EmptyString => EmptyString
  | String c r => String (lower_char c) (lower r)
  end.

(** [needle in hay] for two strings. *)
Definition substring_of (needle hay : string) : bool :=
  match String.index 0 needle hay with
  | Some _ => true
  | None => false
  end.

(** Key lookup in a [dict]. *)
Fixpoint dict_lookup (k : string) (d : list (string * json)) : option json :=
  match d with
  | [] => None
  | (k', v) :: r => if String.eqb k k' then Some v else dict_lookup k r
  end.

(** [d[k] = v]: replaces the value of an existing key in place, appends a new
    key at the end. *)
Fixpoint dict_set (k : string) (v : json) (d : list (string * json))
  : list (string * json) :=
  match d with
  | [] => [(k, v)]
  | (k', v') :: r =>
      if String.eqb k k' then (k, v) :: r else (k', v') :: dict_set k v r
  end.

(** [k in v] for a string [k]. *)
Definition py_in (k : string) (v : json) : outcome bool :=
  match v with
  | JDict d =>
      Ok (match dict_lookup k d with
          | Some _ => true
          | None => false
          end)
  | JList l =>
      Ok (existsb (fun x => match x with
                            | JStr s => String.eqb s k
                            | _ => false
                            end) l)
  | JStr s => Ok (substring_of k s)
  | JNull | JBool _ | JInt _ | JFloat _ => Raise TypeError
  end.

(** [v[k]] for a string [k]. *)
Definition py_getitem (v : json) (k : string) : outcome json :=
  match v with
  | JDict d =>
      match dict_lookup k d with
      | Some x => Ok x
      | None => Raise (KeyError k)
      end
  | _ => Raise TypeError
  end.

(** [v.get(k, default)]: only a [dict] has the method. *)
Definition py_get (v : json) (k : string) (default : json) : outcome json :=
  match v with
  | JDict d =>
      match dict_lookup k d with
      | Some x => Ok x
      | None => Ok default
      end
  | _ => Raise AttributeError
  end.

Fixpoint chars (s : string) : list json :=
  match s with
  | EmptyString => []
  | String c r => JStr (String c "") :: chars r
  end.

(** The items [for x in v] visits: the elements of a [list], the keys of a
    [dict], the characters of a [str]. *)
Definition py_iter (v : json) : outcome (list json) :=
  match v with
  | JList l => Ok l
  | JDict d => Ok (map (fun kv => JStr (fst kv)) d)
  | JStr s => Ok (chars s)
  | JNull | JBool _ | JInt _ | JFloat _ => Raise TypeError
  end.

(** [text + v] for a string [text]. *)
Definition py_str_add (text : string) (v : json) : outcome string :=
  match v with
  | JStr s => Ok (text +:+ s)
  | _ => Raise TypeError
  end.

(** ** Reference instances of the library collaborators *)

(** *** [urllib.parse.urlparse(url).netloc]

    The authority split of [urlsplit] on ASCII text: leading control
    characters and spaces are stripped, tabs and line breaks removed, a
    leading scheme and its colon dropped; the authority is what follows [//]
    up to the first of [/], [?] and [#].  An authority with an unmatched
    square bracket raises [ValueError("Invalid IPv6 URL")].  The check of a
    matched bracketed host as an IP literal, which later versions of the
    library add, is not part of this instance. *)

Definition is_c0_or_space (c : ascii) : bool := (nat_of_ascii c <=? 32)%nat.

Fixpoint lstrip_c0 (s : string) : string :=
  match s with
  | EmptyString => EmptyString
  | String c r => if is_c0_or_space c then lstrip_c0 r else s
  end.

Definition is_unsafe_url_byte (c : ascii) : bool :=
  let n := nat_of_ascii c in
  ((n =? 9) || (n =? 10) || (n =? 13))%nat.

Fixpoint remove_unsafe (s : string) : string :=
  match s with
  | EmptyString => EmptyString
  | String c r =>
      if is_unsafe_url_byte c then remove_unsafe r
      else String c (remove_unsafe r)
  end.

Definition is_alpha (c : ascii) : bool :=
  let n := nat_of_ascii c in
  (((65 <=? n) && (n <=? 90)) || ((97 <=? n) && (n <=? 122)))%nat.

Definition is_digit (c : ascii) : bool :=
  let n := nat_of_ascii c in
  ((48 <=? n) && (n <=? 57))%nat.

Definition is_scheme_char (c : ascii) : bool :=
  is_alpha c || is_digit c
  || Ascii.eqb c "+" || Ascii.eqb c "-" || Ascii.eqb c ".".

(** What follows the scheme and its colon, when [s] starts with a run of
    scheme characters up to its first colon. *)
Fixpoint after_scheme (s : string) : option string :=
  match s with
  | EmptyString => None
  | String c r =>
      if Ascii.eqb c ":" then Some r
      else if is_scheme_char c then after_scheme r
      else None
  end.

Definition drop_scheme (url : string) : string :=
  match url with
  | EmptyString => url
  | String c r =>
      if is_alpha c then
        match after_scheme r with
        | Some rest => rest
        | None => url
        end
      else url
  end.

Definition is_netloc_delim (c : ascii) : bool :=
  Ascii.eqb c "/" || Ascii.eqb c "?" || Ascii.eqb c "#".

(** [_splitnetloc(url, 2)[0]], given [url[2:]]. *)
Fixpoint splitnetloc (s : string) : string :=
  match s with
  | EmptyString => EmptyString
  | String c r =>
      if is_netloc_delim c then EmptyString else String c (splitnetloc r)
  end.

Fixpoint has_char (c : ascii) (s : string) : bool :=
  match s with
  | EmptyString => false
  | String c' r => Ascii.eqb c c' || has_char c r
  end.

Definition urlsplit_netloc (url : string) : string + string :=
  let url := drop_scheme (remove_unsafe (lstrip_c0 url)) in
  match url with
  | String "/" (String "/" rest) =>
      let netloc := splitnetloc rest in
      if xorb (has_char "[" netloc) (has_char "]" netloc)
      then inl "Invalid IPv6 URL"
      else inr netloc
  | _ => inr ""
  end.

(** *** [json.loads]

    A reader for JSON text with string escapes other than [\u] and with
    integer numbers; on text with a [\u] escape or a number with a fraction
    or an exponent it gives [None], where the library reads a value.  As in
    the library, of two members with the same key the later value is kept. *)

Definition is_ws (c : ascii) : bool :=
  let n := nat_of_ascii c in
  ((n =? 32) || (n =? 9) || (n =? 10) || (n =? 13))%nat.

Fixpoint skip_ws (s : string) : string :=
  match s with
  | EmptyString => EmptyString
  | String c r => if is_ws c then skip_ws r else s
  end.

Definition unescape (c : ascii) : option ascii :=
  if Ascii.eqb c "034" then Some "034"%char
  else if Ascii.eqb c "\" then Some "\"%char
  else if Ascii.eqb c "/" then Some "/"%char
  else if Ascii.eqb c "b" then Some "008"%char
  else if Ascii.eqb c "f" then Some "012"%char
  else if Ascii.eqb c "n" then Some "010"%char
  else if Ascii.eqb c "r" then Some "013"%char
  else if Ascii.eqb c "t" then Some "009"%char
  else None.

(** The contents of a string literal and the text after its closing quote,
    read from just after the opening quote. *)
Fixpoint read_string (s : string) : option (string * string) :=
  match s with
  | EmptyString => None
  | String c r =>
      if Ascii.eqb c "034" then Some (EmptyString, r)
      else if Ascii.eqb c "\" then
        match r with
        | EmptyString => None
        | String e r' =>
            match unescape e, read_string r' with
            | Some c', Some (t, rest) => Some (String c' t, rest)
            | _, _ => None
            end
        end
      else if (nat_of_ascii c <? 32)%nat then None
      else
        match read_string r with
        | Some (t, rest) => Some (String c t, rest)
        | None => None
        end
  end.

Fixpoint read_digits (acc : Z) (s : string) : Z * string :=
  match s with
  | EmptyString => (acc, s)
  | String c r =>
      if is_digit c
      then read_digits (10 * acc + Z.of_nat (nat_of_ascii c - 48)) r
      else (acc, s)
  end.

(** [0] or a digit run without a leading zero. *)
Definition read_nat (s : string) : option (Z * string) :=
  match s with
  | EmptyString => None
  | String c r =>
      if Ascii.eqb c "0" then Some (0, r)
      else if is_digit c then Some (read_digits 0 s)
      else None
  end.

Definition starts_fraction (s : string) : bool :=
  match s with
  | EmptyString => false
  | String c _ => Ascii.eqb c "." || Ascii.eqb c "e" || Ascii.eqb c "E"
  end.

Definition read_int (s : string) : option (json * string) :=
  let '(neg, s') :=
    match s with
    | String "-" r => (true, r)
    | _ => (false, s)
    end in
  match read_nat s' with
  | Some (n, rest) =>
      if starts_fraction rest then None
      else Some (JInt (if neg then - n else n), rest)
  | None => None
  end.

Definition read_literal (s : string) : option (json * string) :=
  if String.prefix "null" s
  then Some (JNull, String.substring 4 (String.length s - 4) s)
  else if String.prefix "true" s
  then Some (JBool true, String.substring 4 (String.length s - 4) s)
  else if String.prefix "false" s
  then Some (JBool false, String.substring 5 (String.length s - 5) s)
  else read_int s.

(** The members of an object after its opening brace, [s] being at the
    first character that is not white space. *)
Fixpoint read_members (read : string -> option (json * string)) (fuel : nat)
    (first : bool) (acc : list (string * json)) (s : string)
  : option (json * string) :=
  match fuel, s with
  | S f, String c r =>
      if first && Ascii.eqb c "}" then Some (JDict acc, r)
      else if Ascii.eqb c "034" then
        match read_string r with
        | Some (k, r1) =>
            match skip_ws r1 with
            | String ":" r2 =>
                match read r2 with
                | Some (v, r3) =>
                    match skip_ws r3 with
                    | String "," r4 =>
                        read_members read f false (dict_set k v acc) (skip_ws r4)
                    | String "}" r4 => Some (JDict (dict_set k v acc), r4)
                    | _ => None
                    end
                | None => None
                end
            | _ => None
            end
        | None => None
        end
      else None
  | _, _ => None
  end.

(** The items of an array after its opening bracket. *)
Fixpoint read_items (read : string -> option (json * string)) (fuel : nat)
    (first : bool) (acc : list json) (s : string) : option (json * string) :=
  match fuel, s with
  | S f, String c r =>
      if first && Ascii.eqb c "]" then Some (JList acc, r)
      else
        match read s with
        | Some (v, r1) =>
            match skip_ws r1 with
            | String "," r2 => read_items read f false (acc ++ [v])%list (skip_ws r2)
            | String "]" r2 => Some (JList (acc ++ [v])%list, r2)
            | _ => None
            end
        | None => None
        end
  | _, _ => None
  end.

Fixpoint read_value (fuel : nat) (s : string) : option (json * string) :=
  match fuel with
  | O => None
  | S f =>
      match skip_ws s with
      | EmptyString => None
      | String c r =>
          if Ascii.eqb c "{" then read_members (read_value f) f true [] (skip_ws r)
          else if Ascii.eqb c "[" then read_items (read_value f) f true [] (skip_ws r)
          else if Ascii.eqb c "034" then
            match read_string r with
            | Some (t, rest) => Some (JStr t, rest)
            | None => None
            end
          else read_literal (String c r)
      end
  end.

Definition loads (s : string) : option json :=
  match read_value (S (String.length s)) s with
  | Some (v, rest) =>
      match skip_ws rest with
      | EmptyString => Some v
      | String _ _ => None
      end
  | None => None
  end.

(** ** config.py *)

Module Config.

Record t : Type := mk {
  gateway_url : option string;
  api_id : option string;
  region : string;
  stage : string;
  path : string;
  aws_profile : option string;
  model_map : gmap string string;
  verbose : bool
}.

Definition default_model_map : gmap string string :=
  list_to_map
    [("sonnet-4.5", "anthropic.claude-sonnet-4-5-v1:0");
     ("sonnet", "anthropic.claude-sonnet-4-5-v1:0");
     ("haiku-4.5", "anthropic.claude-haiku-4-5-v1:0");
     ("haiku", "anthropic.claude-haiku-4-5-v1:0")].

(** [Config(gateway_url=.., api_id=.., region=.., stage=.., path=..,
    aws_profile=.., model_map=.., verbose=..)], an absent keyword taking
    the default of its field. *)
Definition cls (gateway_url api_id : option (option string))
    (region stage path : option string)
    (aws_profile : option (option string))
    (model_map : option (gmap string string)) (verbose : option bool) : t :=
  {| gateway_url := default None gateway_url;
     api_id := default None api_id;
     region := default "us-east-1" region;
     stage := default "prod" stage;
     path := default "/invoke" path;
     aws_profile := default None aws_profile;
     model_map := default default_model_map model_map;
     verbose := default false verbose |}.

Definition new : t := cls None None None None None None None None.

Definition set_gateway_url (v : option string) (c : t) : t :=
  mk v (api_id c) (region c) (stage c) (path c) (aws_profile c)
     (model_map c) (verbose c).
Definition set_api_id (v : option string) (c : t) : t :=
  mk (gateway_url c) v (region c) (stage c) (path c) (aws_profile c)
     (model_map c) (verbose c).
Definition set_region (v : string) (c : t) : t :=
  mk (gateway_url c) (api_id c) v (stage c) (path c) (aws_profile c)
     (model_map c) (verbose c).
Definition set_aws_profile (v : option string) (c : t) : t :=
  mk (gateway_url c) (api_id c) (region c) (stage c) (path c) v
     (model_map c) (verbose c).
Definition set_model_map (v : gmap string string) (c : t) : t :=
  mk (gateway_url c) (api_id c) (region c) (stage c) (path c)
     (aws_profile c) v (verbose c).
Definition set_verbose (v : bool) (c : t) : t :=
  mk (gateway_url c) (api_id c) (region c) (stage c) (path c)
     (aws_profile c) (model_map c) v.

(** The process environment: [os.getenv(k)] is [environ !! k]. *)
Definition from_env (environ : gmap string string) : t :=
  cls (Some (environ !! "BEDROCK_GATEWAY_URL"))
      (Some (environ !! "BEDROCK_GATEWAY_API_ID"))
      (Some (default "us-east-1" (environ !! "BEDROCK_GATEWAY_REGION")))
      (Some (default "prod" (environ !! "BEDROCK_GATEWAY_STAGE")))
      (Some (default "/invoke" (environ !! "BEDROCK_GATEWAY_PATH")))
      (Some (environ !! "AWS_PROFILE"))
      None
      (Some (String.eqb
               (lower (default "" (environ !! "BEDROCK_GATEWAY_VERBOSE")))
               "true")).

(** The mapping [yaml.safe_load(f) or {}] gives for a settings file written
    with the fields of [save]: each key is there or not. *)
Record yaml_data : Type := {
  y_gateway_url : option (option string);
  y_api_id : option (option string);
  y_region : option string;
  y_stage : option string;
  y_path : option string;
  y_aws_profile : option (option string);
  y_model_map : option (gmap string string);
  y_verbose : option bool
}.

(** The settings file [~/.bedrock-gateway/config.yaml]: absent, one whose
    reading or loading raises [e], or one that loads to a mapping. *)
Inductive config_file : Type :=
| NoFile
| Unreadable (e : exn)
| Yaml (data : yaml_data).

Definition from_file (file : config_file) : outcome t :=
  match file with
  | NoFile => Ok new
  | Unreadable e => Raise e
  | Yaml data =>
      Ok (cls (y_gateway_url data) (y_api_id data) (y_region data)
              (y_stage data) (y_path data) (y_aws_profile data)
              (y_model_map data) (y_verbose data))
  end.

(** The mapping [save] writes. *)
Definition save (self : t) : yaml_data :=
  {| y_gateway_url := Some (gateway_url self);
     y_api_id := Some (api_id self);
     y_region := Some (region self);
     y_stage := Some (stage self);
     y_path := Some (path self);
     y_aws_profile := Some (aws_profile self);
     y_model_map := Some (model_map self);
     y_verbose := Some (verbose self) |}.

Definition get_full_url (self : t) : outcome string :=
  match nonempty (gateway_url self) with
  | Some url => Ok url
  | None =>
      match nonempty (api_id self) with
      | None =>
          Raise (ValueError
            ("Either gateway_url or api_id must be configured." +:+ nl +:+
             "Set via environment variable BEDROCK_GATEWAY_URL or BEDROCK_GATEWAY_API_ID"))
      | Some id =>
          Ok ("https://" +:+ id +:+ ".execute-api." +:+ region self +:+
              ".amazonaws.com/" +:+ stage self +:+ path self)
      end
  end.

Section Host.
(** [urlparse(url).netloc]: the authority ([inr]), or the message of the
    [ValueError] the parser raises ([inl]). *)
Variable urlparse_netloc : string -> string + string.

(** With neither field set the parser is given [None] and hands back an
    empty authority. *)
Definition get_host (self : t) : outcome string :=
  match nonempty (api_id self) with
  | Some id =>
      Ok (id +:+ ".execute-api." +:+ region self +:+ ".amazonaws.com")
  | None =>
      match gateway_url self with
      | Some url =>
          match urlparse_netloc url with
          | inl msg => Raise (ValueError msg)
          | inr netloc => Ok netloc
          end
      | None => Ok ""
      end
  end.
End Host.

End Config.

(** ** client.py *)

Module BedrockResponse.
(** The fields read out of the decoded reply keep whatever value the reply
    has there. *)
Record t : Type := mk {
  text : string;
  tokens : json;
  input_tokens : json;
  output_tokens : json;
  latency_ms : json;
  request_id : json;
  model : string;
  stop_reason : json;
  raw_response : json
}.
End BedrockResponse.

(** What [requests.post] returns, as far as the client reads it. *)
Module Response.
Record t : Type := mk {
  status_code : Z;
  text : string
}.
End Response.

Module BedrockClient.

(** The arguments of the constructor. *)
Record args : Type := {
  arg_gateway_url : option string;
  arg_api_id : option string;
  arg_region : option string;
  arg_profile : option string;
  arg_config : option Config.t;
  arg_verbose : bool
}.

(** Lines 48-75 of [__init__]: the configuration the client keeps. *)
Definition init_config (file : Config.config_file)
    (environ : gmap string string) (a : args) : Config.t :=
  match arg_config a with
  | Some config => config
  | None =>
      let config := try_except (Config.from_file file) Config.new in
      let env_config := Config.from_env environ in
      let config :=
        if truthy (Config.gateway_url env_config)
        then Config.set_gateway_url (Config.gateway_url env_config) config
        else config in
      let config :=
        if truthy (Config.api_id env_config)
        then Config.set_api_id (Config.api_id env_config) config
        else config in
      let config :=
        if negb (String.eqb (Config.region env_config) "us-east-1")
        then Config.set_region (Config.region env_config) config
        else config in
      let config :=
        if truthy (Config.aws_profile env_config)
        then Config.set_aws_profile (Config.aws_profile env_config) config
        else config in
      let config :=
        if truthy (arg_gateway_url a)
        then Config.set_gateway_url (arg_gateway_url a) config
        else config in
      let config :=
        if truthy (arg_api_id a)
        then Config.set_api_id (arg_api_id a) config
        else config in
      let config :=
        match nonempty (arg_region a) with
        | Some region => Config.set_region region config
        | None => config
        end in
      let config :=
        if truthy (arg_profile a)
        then Config.set_aws_profile (arg_profile a) config
        else config in
      let config :=
        if arg_verbose a
        then Config.set_verbose (arg_verbose a) config
        else config in
      config
  end.

(** The client after lines 48-87 of [__init__]; the credential lookup that
    follows is the work of the AWS session. *)
Record t : Type := mk {
  config : Config.t;
  gateway_url : string;
  host : string
}.

Definition configuration_options : string :=
  "Configuration options:" +:+ nl +:+
  "1. Pass gateway_url or api_id to constructor" +:+ nl +:+
  "2. Set BEDROCK_GATEWAY_URL or BEDROCK_GATEWAY_API_ID environment variable" +:+ nl +:+
  "3. Create config file: ~/.bedrock-gateway/config.yaml" +:+ nl.

Section Endpoint.
Variable urlparse_netloc : string -> string + string.

(** Lines 77-87 of [__init__]. *)
Definition init_endpoint (config : Config.t) : outcome t :=
  match
    gateway_url ← Config.get_full_url config;
    host ← Config.get_host urlparse_netloc config;
    mret (mk config gateway_url host)
  with
  | Raise (ValueError e) =>
      Raise (ValueError (e +:+ nl +:+ nl +:+ configuration_options))
  | r => r
  end.

Definition init (file : Config.config_file)
    (environ : gmap string string) (a : args) : outcome t :=
  init_endpoint (init_config file environ a).
End Endpoint.

(** Lines 121-145 of [chat]: the payload handed to [_send_request]. *)
Definition payload (self : t) (message model : string) (max_tokens : Z)
    (temperature top_p : option json) (system : option string)
    (conversation_history : option (list json)) : json :=
  let messages : list json := [] in
  let messages :=
    match conversation_history with
    | Some (h :: hs) => (messages ++ h :: hs)%list
    | _ => messages
    end in
  let messages :=
    (messages ++
     [JDict [("role", JStr "user");
             ("content", JList [JDict [("text", JStr message)]])]])%list in
  let inference_config := [("maxTokens", JInt max_tokens)] in
  let inference_config :=
    match temperature with
    | Some v => dict_set "temperature" v inference_config
    | None => inference_config
    end in
  let inference_config :=
    match top_p with
    | Some v => dict_set "topP" v inference_config
    | None => inference_config
    end in
  let model_id := default model (Config.model_map (config self) !! model) in
  let payload :=
    [("messages", JList messages);
     ("model", JStr model_id);
     ("inferenceConfig", JDict inference_config)] in
  let payload :=
    match nonempty system with
    | Some s => dict_set "system" (JList [JDict [("text", JStr s)]]) payload
    | None => payload
    end in
  JDict payload.

(** The loop of lines 190-192. *)
Fixpoint add_text (text : string) (content : list json) : outcome string :=
  match content with
  | [] => Ok text
  | content_block :: rest =>
      has_text ← py_in "text" content_block;
      text ← (if has_text : bool
              then v ← py_getitem content_block "text"; py_str_add text v
              else Ok text);
      add_text text rest
  end.

(** Lines 186-192 of [_send_request]: the text of the reply. *)
Definition read_text (bedrock_response : json) : outcome string :=
  has_output ← py_in "output" bedrock_response;
  has_message ← (if has_output : bool
                 then output ← py_getitem bedrock_response "output";
                      py_in "message" output
                 else Ok false);
  if has_message : bool
  then
    output ← py_getitem bedrock_response "output";
    message ← py_getitem output "message";
    has_content ← py_in "content" message;
    if has_content : bool
    then content ← py_getitem message "content";
         blocks ← py_iter content;
         add_text "" blocks
    else Ok ""
  else Ok "".

Section Reply.
(** [json.loads(s)] and [response.json()] on the text [s]: the decoded
    value, or [None] when the reader raises its decode error. *)
Variable json_loads : string -> option json.

Definition loads_or_raise (s : string) : outcome json :=
  match json_loads s with
  | Some v => Ok v
  | None => Raise JSONDecodeError
  end.

(** Lines 181-184 of [_send_request]: the reply inside its envelope. *)
Definition unwrap (result : json) : outcome json :=
  has_body ← py_in "body" result;
  str_body ← (if has_body : bool
              then body ← py_getitem result "body";
                   Ok (match body with
                       | JStr s => Some s
                       | _ => None
                       end)
              else Ok None);
  match str_body with
  | Some s => loads_or_raise s
  | None => Ok result
  end.

(** Lines 170-207 of [_send_request]: what is made of the reply. *)
Definition read_reply (response : Response.t) (model_alias : string)
  : outcome BedrockResponse.t :=
  if negb (Response.status_code response =? 200) then
    let error_detail := JStr (Response.text response) in
    let error_detail :=
      try_except
        (error_json ← loads_or_raise (Response.text response);
         py_get error_json "error" error_detail)
        error_detail in
    Raise (GatewayError (Response.status_code response) error_detail)
  else
    result ← loads_or_raise (Response.text response);
    bedrock_response ← unwrap result;
    text ← read_text bedrock_response;
    usage ← py_get bedrock_response "usage" (JDict []);
    metrics ← py_get bedrock_response "metrics" (JDict []);
    tokens ← py_get usage "totalTokens" (JInt 0);
    input_tokens ← py_get usage "inputTokens" (JInt 0);
    output_tokens ← py_get usage "outputTokens" (JInt 0);
    latency_ms ← py_get metrics "latencyMs" (JInt 0);
    headers ← py_get result "headers" (JDict []);
    request_id ← py_get headers "X-Request-ID" (JStr "unknown");
    stop_reason ← py_get bedrock_response "stopReason" (JStr "unknown");
    Ok (BedrockResponse.mk text tokens input_tokens output_tokens
          latency_ms request_id model_alias stop_reason bedrock_response).

(** The signed POST: the reply of the gateway to a payload sent to a URL
    with a [Host] header. *)
Variable post : string -> string -> json -> Response.t.

Definition _send_request (self : t) (payload : json)
    (model_alias : string) : outcome BedrockResponse.t :=
  read_reply (post (gateway_url self) (host self) payload) model_alias.

Definition chat (self : t) (message model : string) (max_tokens : Z)
    (temperature top_p : option json) (system : option string)
    (conversation_history : option (list json))
  : outcome BedrockResponse.t :=
  _send_request self
    (payload self message model max_tokens temperature top_p system
       conversation_history)
    model.
End Reply.

End BedrockClient.

(** ** The specification's reading of a reply

    Written after the words of the specification, for comparison with what
    [read_reply] computes. *)

Module Spec.

(** The field [k] of an object. *)
Definition field (k : string) (v : json) : option json :=
  match v with
  | JDict d => dict_lookup k d
  | _ => None
  end.

(** Walking [path] down from the object [v] stops at a missing key. *)
Fixpoint absent (path : list string) (v : json) : bool :=
  match path, v with
  | k :: rest, JDict d =>
      match dict_lookup k d with
      | None => true
      | Some v' => absent rest v'
      end
  | _, _ => false
  end.

(** What a content block contributes: its [text] field, or nothing. *)
Definition block_text (block : json) : string :=
  match field "text" block with
  | Some (JStr s) => s
  | _ => ""
  end.

Fixpoint join (l : list string) : string :=
  match l with
  | [] => ""
  | s :: r => s +:+ join r
  end.

(** The endpoint derived from an endpoint id:
    [{endpointId}.execute-api.{region}.amazonaws.com] and
    [https://{endpointId}.execute-api.{region}.amazonaws.com/{stage}{path}]. *)
Definition derived_host (id region : string) : string :=
  id +:+ ".execute-api." +:+ region +:+ ".amazonaws.com".

Definition derived_url (id region stage path : string) : string :=
  "https://" +:+ id +:+ ".execute-api." +:+ region +:+ ".amazonaws.com/" +:+
  stage +:+ path.

(** The value at the end of [path], every step being a field of an
    object. *)
Fixpoint walk (path : list string) (v : json) : option json :=
  match path with
  | [] => Some v
  | k :: rest =>
      match field k v with
      | Some v' => walk rest v'
      | None => None
      end
  end.

(** The texts of the blocks of [inner.output.message.content], in order. *)
Definition text_of (inner : json) : string :=
  match walk ["output"; "message"; "content"] inner with
  | Some (JList blocks) => join (map block_text blocks)
  | _ => ""
  end.

(** [envelope.headers["X-Request-ID"]], or ["unknown"]. *)
Definition request_id_of (envelope : json) : json :=
  match field "headers" envelope with
  | Some (JDict h) => default (JStr "unknown") (dict_lookup "X-Request-ID" h)
  | _ => JStr "unknown"
  end.

(** The value at the end of [path], or [d] when the walk stops short. *)
Definition at_or (path : list string) (d : json) (v : json) : json :=
  default d (walk path v).

(** The record of the specification: what is read out of an inner reply and
    the envelope it came in. *)
Definition record (envelope inner : json) (model_alias : string)
  : BedrockResponse.t :=
  BedrockResponse.mk
    (text_of inner)
    (at_or ["usage"; "totalTokens"] (JInt 0) inner)
    (at_or ["usage"; "inputTokens"] (JInt 0) inner)
    (at_or ["usage"; "outputTokens"] (JInt 0) inner)
    (at_or ["metrics"; "latencyMs"] (JInt 0) inner)
    (request_id_of envelope)
    model_alias
    (at_or ["stopReason"] (JStr "unknown") inner)
    inner.

(** The shape the specification assumes of a reply: where a field on the way
    is there, it holds what the walk expects (an object, for [content] a list
    of objects, for the [text] of a block a string). *)
Definition is_dict (v : json) : bool :=
  match v with
  | JDict _ => true
  | _ => false
  end.

Definition is_str (v : json) : bool :=
  match v with
  | JStr _ => true
  | _ => false
  end.

Definition optional (k : string) (ok : json -> bool) (v : json) : bool :=
  match field k v with
  | Some x => ok x
  | None => true
  end.

Definition block_ok (block : json) : bool :=
  is_dict block && optional "text" is_str block.

Definition content_ok (content : json) : bool :=
  match content with
  | JList blocks => forallb block_ok blocks
  | _ => false
  end.

Definition message_ok (message : json) : bool :=
  is_dict message && optional "content" content_ok message.

Definition output_ok (output : json) : bool :=
  is_dict output && optional "message" message_ok output.

Definition inner_ok (inner : json) : bool :=
  is_dict inner && optional "output" output_ok inner &&
  optional "usage" is_dict inner && optional "metrics" is_dict inner.

Definition envelope_ok (envelope : json) : bool :=
  is_dict envelope && optional "headers" is_dict envelope.

Section Reader.
Variable json_loads : string -> option json.

(** The detail of a gateway error: the [error] field of a body that is a
    JSON object with one, the body itself otherwise. *)
Definition error_detail (body : string) : json :=
  match json_loads body with
  | Some (JDict d) => default (JStr body) (dict_lookup "error" d)
  | _ => JStr body
  end.

(** The inner reply of an envelope: the reading of its [body] field when
    that is a string, the envelope itself otherwise. *)
Definition inner (envelope : json) : option json :=
  match field "body" envelope with
  | Some (JStr s) => json_loads s
  | _ => Some envelope
  end.
End Reader.

End Spec.

(** ** Sample inputs *)

Module Example.

(** [s] between double quotes, and between escaped double quotes. *)
Definition q (s : string) : string := quote +:+ s +:+ quote.
Definition eq (s : string) : string := "\" +:+ quote +:+ s +:+ "\" +:+ quote.

Definition no_args : BedrockClient.args :=
  {| BedrockClient.arg_gateway_url := None;
     BedrockClient.arg_api_id := None;
     BedrockClient.arg_region := None;
     BedrockClient.arg_profile := None;
     BedrockClient.arg_config := None;
     BedrockClient.arg_verbose := false |}.

(** A gateway URL together with an API id. *)
Definition both_set : Config.t :=
  Config.set_api_id (Some "abc123")
    (Config.set_gateway_url (Some "https://x.example.com/prod/invoke")
       Config.new).

(** An API id alone, in another region. *)
Definition derived : Config.t :=
  Config.set_region "ap-southeast-2"
    (Config.set_api_id (Some "abc123") Config.new).

(** A gateway URL alone, with an unmatched bracket in its authority. *)
Definition open_bracket : Config.t :=
  Config.set_gateway_url (Some "https://[::1/invoke") Config.new.

(** An environment that sets the API id, the stage, the path and the verbose
    flag. *)
Definition staged_environ : gmap string string :=
  list_to_map
    [("BEDROCK_GATEWAY_API_ID", "abc123");
     ("BEDROCK_GATEWAY_STAGE", "dev");
     ("BEDROCK_GATEWAY_PATH", "/chat");
     ("BEDROCK_GATEWAY_VERBOSE", "TRUE")].

(** [{"error":"forbidden"}] *)
Definition forbidden_body : string :=
  "{" +:+ q "error" +:+ ":" +:+ q "forbidden" +:+ "}".

(** The reply [{"output":{"message":{"content":[{"text":"hi"}]}},
    "usage":{"totalTokens":5},"stopReason":"end_turn"}] as the string of the
    [body] field of an envelope. *)
Definition wrapped_body : string :=
  "{" +:+ q "body" +:+ ": " +:+ quote +:+
  "{" +:+ eq "output" +:+ ":{" +:+ eq "message" +:+ ":{" +:+ eq "content" +:+
  ":[{" +:+ eq "text" +:+ ":" +:+ eq "hi" +:+ "}]}}," +:+
  eq "usage" +:+ ":{" +:+ eq "totalTokens" +:+ ":5}," +:+
  eq "stopReason" +:+ ":" +:+ eq "end_turn" +:+ "}" +:+ quote +:+ "}".

(** [{"headers":{"X-Request-ID":"outer-1"},
     "body":"{\"headers\":{\"X-Request-ID\":\"inner-2\"}}"}] *)
Definition two_ids_body : string :=
  "{" +:+ q "headers" +:+ ":{" +:+ q "X-Request-ID" +:+ ":" +:+ q "outer-1" +:+
  "}," +:+ q "body" +:+ ":" +:+ quote +:+
  "{" +:+ eq "headers" +:+ ":{" +:+ eq "X-Request-ID" +:+ ":" +:+
  eq "inner-2" +:+ "}}" +:+ quote +:+ "}".

(** [{"body":"not json"}] *)
Definition broken_inner_body : string :=
  "{" +:+ q "body" +:+ ":" +:+ q "not json" +:+ "}".

Definition reply (status_code : Z) (text : string) : Response.t :=
  Response.mk status_code text.

(** The inner reply of [wrapped_body] and the record made of it. *)
Definition wrapped_inner : json :=
  JDict
    [("output",
      JDict [("message",
              JDict [("content", JList [JDict [("text", JStr "hi")]])])]);
     ("usage", JDict [("totalTokens", JInt 5)]);
     ("stopReason", JStr "end_turn")].

Definition wrapped_record : BedrockResponse.t :=
  BedrockResponse.mk "hi" (JInt 5) (JInt 0) (JInt 0) (JInt 0)
    (JStr "unknown") "sonnet-4.5" (JStr "end_turn") wrapped_inner.

(** The record made of [two_ids_body]. *)
Definition two_ids_record : BedrockResponse.t :=
  BedrockResponse.mk "" (JInt 0) (JInt 0) (JInt 0) (JInt 0)
    (JStr "outer-1") "sonnet-4.5" (JStr "unknown")
    (JDict [("headers", JDict [("X-Request-ID", JStr "inner-2")])]).

(** The record of a reply with every field at its default. *)
Definition default_record (model_alias : string) (inner : json)
  : BedrockResponse.t :=
  BedrockResponse.mk "" (JInt 0) (JInt 0) (JInt 0) (JInt 0)
    (JStr "unknown") model_alias (JStr "unknown") inner.

(** A client with the default configuration. *)
Definition client : BedrockClient.t :=
  BedrockClient.mk Config.new "https://x.example.com/prod/invoke"
    "x.example.com".

End Example.

(** ** client.py: the rest of the constructor, and the functions of the module *)

(** What the AWS session of a profile answers, as far as the constructor
    asks: the credentials ([None] when none are found), and the [Arn] of the
    caller identity ([None] when the answer of STS has no such key).  [inl]
    is the text [str(e)] of an exception the call raises. *)
Module Aws.
Record session : Type := {
  get_credentials : string + option string;
  get_caller_identity : string + option string
}.
End Aws.

Module Construct.

(** What stops the constructor or a call: an exception of the code modelled
    so far, an exception of the AWS libraries passed on as it is, or one of
    the plain [Exception]s of the constructor, with its message. *)
Inductive failure : Type :=
| Raised (e : exn)
| Botocore (msg : string)
| Exception (msg : string).

Record t : Type := mk {
  client : BedrockClient.t;
  credentials : string;
  user_arn : string
}.

Definition no_credentials : string :=
  "No AWS credentials found. Please configure your AWS credentials." +:+ nl +:+
  "Run: aws configure".

Section Init.
Variable urlparse_netloc : string -> string + string.
(** [boto3.Session(profile_name=...)], in the environment of the process,
    which the session reads on its own. *)
Variable boto3_Session :
  gmap string string -> option string -> string + Aws.session.
(** [print(line)] after the lines [out] have been written: [None] when the
    line is written, the text [str(e)] of the exception when the write
    raises. *)
Variable print_raises : list string -> string -> option string.

Definition failed_to_authenticate (msg : string) : failure :=
  Exception ("Failed to authenticate with AWS: " +:+ msg).

(** [BedrockClient.__init__], lines 48-107: the lines it prints, and the
    client or what it raises.  The two [print]s are inside the [try] of the
    identity check. *)
Definition init (file : Config.config_file) (environ : gmap string string)
    (a : BedrockClient.args) : list string * (failure + t) :=
  match BedrockClient.init urlparse_netloc file environ a with
  | Raise e => ([], inl (Raised e))
  | Ok c =>
      match
        boto3_Session environ (Config.aws_profile (BedrockClient.config c))
      with
      | inl msg => ([], inl (Botocore msg))
      | inr session =>
          match Aws.get_credentials session with
          | inl msg => ([], inl (Botocore msg))
          | inr None => ([], inl (Exception no_credentials))
          | inr (Some credentials) =>
              match Aws.get_caller_identity session with
              | inl msg => ([], inl (failed_to_authenticate msg))
              | inr None => ([], inl (failed_to_authenticate "'Arn'"))
              | inr (Some arn) =>
                  if Config.verbose (BedrockClient.config c)
                  then
                    let line1 := "✅ Authenticated as: " +:+ arn in
                    let line2 :=
                      "🌐 Gateway: " +:+ BedrockClient.gateway_url c in
                    match print_raises [] line1 with
                    | Some msg => ([], inl (failed_to_authenticate msg))
                    | None =>
                        match print_raises [line1] line2 with
                        | Some msg =>
                            ([line1], inl (failed_to_authenticate msg))
                        | None =>
                            ([line1; line2], inr (mk c credentials arn))
                        end
                    end
                  else ([], inr (mk c credentials arn))
              end
          end
      end
  end.
End Init.

End Construct.

(** The functions and the global of the module [client]. *)
Module Client.

(** The configuration [configure] builds. *)
Definition configured (gateway_url api_id region profile : option string)
    (model_map : option (gmap string string)) : Config.t :=
  let config := Config.new in
  let config :=
    if truthy gateway_url then Config.set_gateway_url gateway_url config
    else config in
  let config :=
    if truthy api_id then Config.set_api_id api_id config else config in
  let config :=
    match nonempty region with
    | Some region => Config.set_region region config
    | None => config
    end in
  let config :=
    if truthy profile then Config.set_aws_profile profile config
    else config in
  let config :=
    match model_map with
    | Some m => if bool_decide (m = ∅) then config
                else Config.set_model_map m config
    | None => config
    end in
  config.

(** The global [_global_config] and the settings file. *)
Record state : Type := {
  _global_config : option Config.t;
  settings_file : Config.config_file
}.

(** [configure]: the state it leaves and the line it prints; the write of
    [save] is taken to succeed. *)
Definition configure (gateway_url api_id region profile : option string)
    (model_map : option (gmap string string)) (save : bool) (st : state)
  : state * list string :=
  let config := configured gateway_url api_id region profile model_map in
  ({| _global_config := Some config;
      settings_file := if save then Config.Yaml (Config.save config)
                       else settings_file st |},
   if save
   then ["✅ Configuration saved to ~/.bedrock-gateway/config.yaml"]
   else []).

(** The keyword arguments [chat] hands on to the method of the client. *)
Record kwargs : Type := {
  max_tokens : option Z;
  temperature : option json;
  top_p : option json;
  system : option string;
  conversation_history : option (list json)
}.

Section Chat.
Variable urlparse_netloc : string -> string + string.
Variable boto3_Session :
  gmap string string -> option string -> string + Aws.session.
Variable print_raises : list string -> string -> option string.
Variable json_loads : string -> option json.
(** The signed POST, in the environment of the process and with the
    credentials of the client. *)
Variable post :
  gmap string string -> string -> string -> string -> json -> Response.t.

(** [chat(message, model, **kwargs)]: the lines printed, and the text of the
    reply or what was raised. *)
Definition chat (st : state) (environ : gmap string string)
    (message model : string) (kw : kwargs)
  : list string * (Construct.failure + string) :=
  let a :=
    {| BedrockClient.arg_gateway_url := None;
       BedrockClient.arg_api_id := None;
       BedrockClient.arg_region := None;
       BedrockClient.arg_profile := None;
       BedrockClient.arg_config := _global_config st;
       BedrockClient.arg_verbose := false |} in
  match
    Construct.init urlparse_netloc boto3_Session print_raises
      (settings_file st) environ a
  with
  | (out, inl f) => (out, inl f)
  | (out, inr c) =>
      match
        BedrockClient.chat json_loads
          (post environ (Construct.credentials c)) (Construct.client c)
          message model
          (default 2000 (max_tokens kw)) (temperature kw) (top_p kw)
          (system kw) (conversation_history kw)
      with
      | Ok response => (out, inr (BedrockResponse.text response))
      | Raise e => (out, inl (Construct.Raised e))
      end
  end.
End Chat.

End Client.

(** ** More sample inputs *)

Module Sample.
Import Example.

(** [{"usage":null}] *)
Definition null_usage_body : string :=
  "{" +:+ q "usage" +:+ ":null}".

(** [{"output":{"message":{"content":[{"text":"a"},{"text":5},{"text":"b"}]}}}] *)
Definition number_text_body : string :=
  "{" +:+ q "output" +:+ ":{" +:+ q "message" +:+ ":{" +:+ q "content" +:+
  ":[{" +:+ q "text" +:+ ":" +:+ q "a" +:+ "},{" +:+ q "text" +:+ ":5},{" +:+
  q "text" +:+ ":" +:+ q "b" +:+ "}]}}}".

Definition number_text_inner : json :=
  JDict
    [("output",
      JDict [("message",
              JDict [("content",
                      JList [JDict [("text", JStr "a")];
                             JDict [("text", JInt 5)];
                             JDict [("text", JStr "b")]])])])].

(** [two_ids_body] with another request id on the envelope. *)
Definition other_ids_body : string :=
  "{" +:+ q "headers" +:+ ":{" +:+ q "X-Request-ID" +:+ ":" +:+ q "outer-3" +:+
  "}," +:+ q "body" +:+ ":" +:+ quote +:+
  "{" +:+ eq "headers" +:+ ":{" +:+ eq "X-Request-ID" +:+ ":" +:+
  eq "inner-2" +:+ "}}" +:+ quote +:+ "}".

Definition other_ids_record : BedrockResponse.t :=
  BedrockResponse.mk "" (JInt 0) (JInt 0) (JInt 0) (JInt 0)
    (JStr "outer-3") "sonnet-4.5" (JStr "unknown")
    (JDict [("headers", JDict [("X-Request-ID", JStr "inner-2")])]).

(** A gateway that answers every request with [wrapped_body]. *)
Definition wrapped_post (url host : string) (payload : json) : Response.t :=
  reply 200 wrapped_body.

(** A session with credentials and an identity, and one without
    credentials. *)
Definition signed_in : Aws.session :=
  {| Aws.get_credentials := inr (Some "AKIDEXAMPLE");
     Aws.get_caller_identity :=
       inr (Some "arn:aws:iam::123456789012:user/dev") |}.

Definition signed_out : Aws.session :=
  {| Aws.get_credentials := inr None;
     Aws.get_caller_identity := inl "Unable to locate credentials" |}.

(** [{"usage":{"totalTokens":5}}] *)
Definition total_only_body : string :=
  "{" +:+ q "usage" +:+ ":{" +:+ q "totalTokens" +:+ ":5}}".

Definition total_only_inner : json :=
  JDict [("usage", JDict [("totalTokens", JInt 5)])].

(** A standard output that takes a first line and raises on any further
    one. *)
Definition one_line_only (out : list string) (line : string)
  : option string :=
  match out with
  | [] => None
  | _ :: _ => Some "[Errno 32] Broken pipe"
  end.

Definition custom_map : gmap string string :=
  list_to_map
    [("sonnet-4.5", "au.anthropic.claude-sonnet-4-5-20250929-v1:0");
     ("haiku-4.5", "au.anthropic.claude-haiku-4-5-20251001-v1:0")].

Definition fresh_state : Client.state :=
  {| Client._global_config := None;
     Client.settings_file := Config.NoFile |}.

Definition no_kwargs : Client.kwargs :=
  {| Client.max_tokens := None;
     Client.temperature := None;
     Client.top_p := None;
     Client.system := None;
     Client.conversation_history := None |}.

End Sample.

(** * Properties *)

Lemma nonempty_Some (o : option string) (s : string) :
  nonempty o = Some s <-> o = Some s /\ s <> "".
Proof.
  unfold nonempty. destruct o as [s'|]; [|split; [discriminate|intros [? _]; discriminate]].
  destruct (String.eqb_spec s' "") as [->|Hne]; split.
  - discriminate.
  - intros [[= ->] Hs]. now destruct Hs.
  - intros [= ->]. split; [reflexivity|assumption].
  - intros [[= ->] _]. reflexivity.
Qed.

Lemma truthy_true (o : option string) :
  truthy o = true <-> exists s, nonempty o = Some s.
Proof.
  unfold truthy. destruct (nonempty o) as [s|]; split.
  - intros _. now exists s.
  - reflexivity.
  - discriminate.
  - intros [s [=]].
Qed.

Lemma truthy_false (o : option string) :
  truthy o = false <-> nonempty o = None.
Proof.
  unfold truthy. destruct (nonempty o); split; congruence.
Qed.

(** ** Endpoint resolution *)

Section EndpointProperties.
Variable urlparse_netloc : string -> string + string.

Local Abbreviation get_host := (Config.get_host urlparse_netloc).
Local Abbreviation init_endpoint :=
  (BedrockClient.init_endpoint urlparse_netloc).

Lemma get_full_url_gateway_url (c : Config.t) (url : string) :
  nonempty (Config.gateway_url c) = Some url ->
  Config.get_full_url c = Ok url.
Proof. intros H. unfold Config.get_full_url. now rewrite H. Qed.

Lemma get_host_api_id (c : Config.t) (id : string) :
  nonempty (Config.api_id c) = Some id ->
  get_host c = Ok (Spec.derived_host id (Config.region c)).
Proof. intros H. unfold Config.get_host. now rewrite H. Qed.

Lemma get_host_gateway_url (c : Config.t) (url : string) :
  nonempty (Config.api_id c) = None ->
  Config.gateway_url c = Some url ->
  get_host c =
    match urlparse_netloc url with
    | inl msg => Raise (ValueError msg)
    | inr netloc => Ok netloc
    end.
Proof. intros Hid Hurl. unfold Config.get_host. now rewrite Hid, Hurl. Qed.

(** C1, as the code has it: with both [gateway_url] and [api_id] set the
    client keeps the gateway URL verbatim as its URL, and the host derived
    from the API id and the region as its host; the authority of the gateway
    URL is not consulted. *)
Theorem both_set_endpoint (c : Config.t) :
  truthy (Config.gateway_url c) = true ->
  truthy (Config.api_id c) = true ->
  exists url id,
    Config.gateway_url c = Some url /\ Config.api_id c = Some id /\
    init_endpoint c =
      Ok (BedrockClient.mk c url (Spec.derived_host id (Config.region c))).
Proof.
  intros [url Hurl]%truthy_true [id Hid]%truthy_true.
  exists url, id.
  pose proof (proj1 (nonempty_Some _ _) Hurl) as [Hgw _].
  pose proof (proj1 (nonempty_Some _ _) Hid) as [Hapi _].
  repeat split; try assumption.
  unfold BedrockClient.init_endpoint.
  rewrite (get_full_url_gateway_url _ _ Hurl), (get_host_api_id _ _ Hid).
  reflexivity.
Qed.

(** C7: with [gateway_url] unset and [api_id] set, the URL is
    [https://{api_id}.execute-api.{region}.amazonaws.com/{stage}{path}] and
    the host [{api_id}.execute-api.{region}.amazonaws.com], from the region,
    stage and path of the configuration. *)
Theorem derived_endpoint (c : Config.t) (id : string) :
  truthy (Config.gateway_url c) = false ->
  Config.api_id c = Some id ->
  id <> "" ->
  init_endpoint c =
    Ok (BedrockClient.mk c
          (Spec.derived_url id (Config.region c) (Config.stage c)
             (Config.path c))
          (Spec.derived_host id (Config.region c))).
Proof.
  intros Hgw%truthy_false Hapi Hne.
  assert (Hid : nonempty (Config.api_id c) = Some id)
    by (apply nonempty_Some; split; assumption).
  unfold BedrockClient.init_endpoint.
  rewrite (get_host_api_id _ _ Hid).
  unfold Config.get_full_url. rewrite Hgw, Hid.
  reflexivity.
Qed.

(** C8, amended: resolution raises exactly when neither [gateway_url] nor
    [api_id] is set, or when [api_id] is unset and the URL parser rejects the
    gateway URL; what it raises is always a [ValueError], and in every other
    case it returns the client with its URL and host. *)
Theorem init_endpoint_raises_iff (c : Config.t) :
  ((exists e, init_endpoint c = Raise e) <->
   (truthy (Config.gateway_url c) = false /\
    truthy (Config.api_id c) = false) \/
   (truthy (Config.api_id c) = false /\
    exists url msg,
      nonempty (Config.gateway_url c) = Some url /\
      urlparse_netloc url = inl msg)) /\
  (forall e, init_endpoint c = Raise e -> exists msg, e = ValueError msg) /\
  ((exists e, init_endpoint c = Raise e) \/
   (exists url host, init_endpoint c = Ok (BedrockClient.mk c url host))).
Proof.
  unfold BedrockClient.init_endpoint, Config.get_full_url, Config.get_host.
  unfold truthy.
  destruct (nonempty (Config.gateway_url c)) as [url|] eqn:Hgw;
    destruct (nonempty (Config.api_id c)) as [id|] eqn:Hapi; cbn.
  - repeat split.
    + intros [e [=]].
    + intros [[[=] _]|[[=] _]].
    + intros e [=].
    + right. eauto.
  - apply nonempty_Some in Hgw as [Hgw' Hne]. rewrite Hgw'.
    destruct (urlparse_netloc url) as [msg|netloc] eqn:Hp; cbn.
    + repeat split.
      * intros _. right. split; [reflexivity|]. exists url, msg.
        split; [reflexivity|assumption].
      * intros _. eauto.
      * intros e [= <-]. eauto.
      * left. eauto.
    + repeat split.
      * intros [e [=]].
      * intros [[[=] _]|[_ (url' & msg & Hu & Hm)]].
        injection Hu as <-. congruence.
      * intros e [=].
      * right. eauto.
  - repeat split.
    + intros [e [=]].
    + intros [[_ [=]]|[[=] _]].
    + intros e [=].
    + right. eauto.
  - repeat split.
    + intros _. left. split; reflexivity.
    + intros _. eauto.
    + intros e [= <-]. eauto.
    + left. eauto.
Qed.

End EndpointProperties.

Lemma both_set_endpoint_witness :
  truthy (Config.gateway_url Example.both_set) = true /\
  truthy (Config.api_id Example.both_set) = true /\
  exists url id,
    Config.gateway_url Example.both_set = Some url /\
    Config.api_id Example.both_set = Some id /\
    BedrockClient.init_endpoint urlsplit_netloc Example.both_set =
      Ok (BedrockClient.mk Example.both_set url
            (Spec.derived_host id (Config.region Example.both_set))).
Proof.
  split; [reflexivity|]. split; [reflexivity|].
  apply (both_set_endpoint urlsplit_netloc Example.both_set); reflexivity.
Defined.

(** With the gateway URL [https://x.example.com/prod/invoke] and the API id
    [abc123] both set, the host of the client is not the authority
    [x.example.com] of the gateway URL. *)
Lemma both_set_host_is_not_authority :
  truthy (Config.gateway_url Example.both_set) = true /\
  truthy (Config.api_id Example.both_set) = true /\
  ~ (exists netloc,
       urlsplit_netloc "https://x.example.com/prod/invoke" = inr netloc /\
       BedrockClient.init_endpoint urlsplit_netloc Example.both_set =
         Ok (BedrockClient.mk Example.both_set
               "https://x.example.com/prod/invoke" netloc)).
Proof.
  split; [reflexivity|]. split; [reflexivity|].
  intros (netloc & Hnetloc & Hinit).
  vm_compute in Hnetloc. injection Hnetloc as <-.
  vm_compute in Hinit. congruence.
Qed.

Lemma derived_endpoint_witness :
  truthy (Config.gateway_url Example.derived) = false /\
  Config.api_id Example.derived = Some "abc123" /\
  BedrockClient.init_endpoint urlsplit_netloc Example.derived =
    Ok (BedrockClient.mk Example.derived
          "https://abc123.execute-api.ap-southeast-2.amazonaws.com/prod/invoke"
          "abc123.execute-api.ap-southeast-2.amazonaws.com").
Proof.
  split; [reflexivity|]. split; [reflexivity|].
  apply (derived_endpoint urlsplit_netloc Example.derived "abc123");
    [reflexivity|reflexivity|discriminate].
Defined.

(** A gateway URL is set, with an unmatched bracket in its authority, and
    resolution raises all the same. *)
Lemma set_gateway_url_raises :
  ~ ((exists e,
        BedrockClient.init_endpoint urlsplit_netloc Example.open_bracket =
          Raise e) <->
     (truthy (Config.gateway_url Example.open_bracket) = false /\
      truthy (Config.api_id Example.open_bracket) = false)).
Proof.
  intros [Hraise _].
  destruct Hraise as [Hgw _]; [|discriminate Hgw].
  eexists. vm_compute. reflexivity.
Qed.

(** ** Configuration layers *)

Section ConfigProperties.
Variable file : Config.config_file.
Variable environ : gmap string string.
Variable a : BedrockClient.args.
Hypothesis no_config : BedrockClient.arg_config a = None.

Local Abbreviation config := (BedrockClient.init_config file environ a).
Local Abbreviation persisted :=
  (try_except (Config.from_file file) Config.new).

Ltac cases :=
  repeat match goal with
         | |- context [if ?b then _ else _] => destruct b eqn:?
         | |- context [match nonempty ?o with _ => _ end] =>
             destruct (nonempty o) eqn:?
         end;
  cbn in *; try reflexivity; try congruence.

Ltac layers :=
  unfold BedrockClient.init_config; rewrite no_config; cases.

(** The gateway URL: the argument, else the environment, else the settings
    file or the default. *)
Lemma init_config_gateway_url :
  Config.gateway_url config =
    if truthy (BedrockClient.arg_gateway_url a)
    then BedrockClient.arg_gateway_url a
    else if truthy (environ !! "BEDROCK_GATEWAY_URL")
         then environ !! "BEDROCK_GATEWAY_URL"
         else Config.gateway_url persisted.
Proof. layers. Qed.

Lemma init_config_api_id :
  Config.api_id config =
    if truthy (BedrockClient.arg_api_id a)
    then BedrockClient.arg_api_id a
    else if truthy (environ !! "BEDROCK_GATEWAY_API_ID")
         then environ !! "BEDROCK_GATEWAY_API_ID"
         else Config.api_id persisted.
Proof. layers. Qed.

Lemma init_config_aws_profile :
  Config.aws_profile config =
    if truthy (BedrockClient.arg_profile a)
    then BedrockClient.arg_profile a
    else if truthy (environ !! "AWS_PROFILE")
         then environ !! "AWS_PROFILE"
         else Config.aws_profile persisted.
Proof. layers. Qed.

(** The region: the argument, else an environment value other than
    [us-east-1], else the settings file or the default. *)
Lemma init_config_region :
  Config.region config =
    match nonempty (BedrockClient.arg_region a) with
    | Some region => region
    | None =>
        let region := default "us-east-1" (environ !! "BEDROCK_GATEWAY_REGION") in
        if String.eqb region "us-east-1" then Config.region persisted
        else region
    end.
Proof.
  unfold BedrockClient.init_config; rewrite no_config.
  cbn [Config.from_env Config.cls Config.region default from_option id].
  destruct (String.eqb _ "us-east-1") eqn:Hregion; cases.
Qed.

(** The stage, the path and the model map come from the settings file or the
    defaults, whatever the environment holds; the verbose flag from the
    argument or from there. *)
Lemma init_config_stage : Config.stage config = Config.stage persisted.
Proof. layers. Qed.

Lemma init_config_path : Config.path config = Config.path persisted.
Proof. layers. Qed.

Lemma init_config_model_map :
  Config.model_map config = Config.model_map persisted.
Proof. layers. Qed.

Lemma init_config_verbose :
  Config.verbose config =
    if BedrockClient.arg_verbose a then true else Config.verbose persisted.
Proof. layers. Qed.

End ConfigProperties.

(** C2, at an environment that sets the stage to [dev], the path to [/chat]
    and the verbose flag, with no settings file and no argument: the
    environment is read with these values, and the configuration of the
    client keeps the defaults [prod], [/invoke] and [False]. *)
Theorem environment_stage_path_verbose_ignored :
  let env_config := Config.from_env Example.staged_environ in
  let config :=
    BedrockClient.init_config Config.NoFile Example.staged_environ
      Example.no_args in
  (Config.stage env_config = "dev" /\ Config.stage config = "prod") /\
  (Config.path env_config = "/chat" /\ Config.path config = "/invoke") /\
  (Config.verbose env_config = true /\ Config.verbose config = false) /\
  Config.api_id config = Some "abc123".
Proof. vm_compute. repeat split. Qed.

(** ** The reply of the gateway *)

Lemma bind_Ok {A B} (m : outcome A) (f : A -> outcome B) (b : B) :
  m ≫= f = Ok b -> exists x, m = Ok x /\ f x = Ok b.
Proof. destruct m as [x|e]; cbn; [eauto|discriminate]. Qed.

Lemma bind_Raise {A B} (m : outcome A) (f : A -> outcome B) (e : exn) :
  m ≫= f = Raise e -> m = Raise e \/ exists x, m = Ok x /\ f x = Raise e.
Proof. destruct m as [x|e']; cbn; [eauto|intros [= ->]; now left]. Qed.

Lemma append_empty_r (s : string) : s +:+ "" = s.
Proof.
  induction s as [|c s IH]; [reflexivity|].
  change (String c (s +:+ "") = String c s). now rewrite IH.
Qed.

Lemma append_assoc (s1 s2 s3 : string) :
  (s1 +:+ s2) +:+ s3 = s1 +:+ (s2 +:+ s3).
Proof.
  induction s1 as [|c s1 IH]; [reflexivity|].
  change (String c ((s1 +:+ s2) +:+ s3) = String c (s1 +:+ (s2 +:+ s3))).
  now rewrite IH.
Qed.

(** *** The Python operators against the fields of an object *)

Lemma py_getitem_Ok (v : json) (k : string) (x : json) :
  py_getitem v k = Ok x <-> Spec.field k v = Some x.
Proof.
  destruct v; cbn; try (split; discriminate).
  destruct (dict_lookup k fields); split; congruence.
Qed.

Lemma py_in_false (k : string) (v : json) :
  py_in k v = Ok false -> Spec.field k v = None.
Proof.
  destruct v; cbn; try reflexivity.
  destruct (dict_lookup k fields); [discriminate|reflexivity].
Qed.

Lemma py_get_Ok (v : json) (k : string) (d x : json) :
  py_get v k d = Ok x ->
  exists fields, v = JDict fields /\ x = default d (dict_lookup k fields).
Proof.
  destruct v; cbn; try discriminate.
  intros H. exists fields. split; [reflexivity|].
  destruct (dict_lookup k fields); cbn; congruence.
Qed.

Lemma py_in_not_gateway (k : string) (v : json) (e : exn) :
  py_in k v = Raise e -> is_gateway_error e = false.
Proof. destruct v; cbn; intros [=]; subst; reflexivity. Qed.

Lemma py_getitem_not_gateway (v : json) (k : string) (e : exn) :
  py_getitem v k = Raise e -> is_gateway_error e = false.
Proof.
  destruct v; cbn; try (intros [=]; subst; reflexivity).
  destruct (dict_lookup k fields); intros [=]; subst; reflexivity.
Qed.

Lemma py_get_not_gateway (v : json) (k : string) (d : json) (e : exn) :
  py_get v k d = Raise e -> is_gateway_error e = false.
Proof.
  destruct v; cbn; try (intros [=]; subst; reflexivity).
  destruct (dict_lookup k fields); intros [=].
Qed.

Lemma py_iter_not_gateway (v : json) (e : exn) :
  py_iter v = Raise e -> is_gateway_error e = false.
Proof. destruct v; cbn; intros [=]; subst; reflexivity. Qed.

Lemma py_str_add_not_gateway (text : string) (v : json) (e : exn) :
  py_str_add text v = Raise e -> is_gateway_error e = false.
Proof. destruct v; cbn; intros [=]; subst; reflexivity. Qed.

Create HintDb not_gateway.

#[local] Hint Resolve py_in_not_gateway py_getitem_not_gateway
  py_get_not_gateway py_iter_not_gateway py_str_add_not_gateway
  : not_gateway.

(** Takes a bind that raised apart, into the step that raised. *)
Ltac raised H :=
  repeat match type of H with
         | _ ≫= _ = Raise _ =>
             let x := fresh "x" in
             let Hx := fresh "Hx" in
             apply bind_Raise in H as [H|(x & Hx & H)];
             [eauto with not_gateway|]
         | (if ?b then _ else _) = Raise _ => destruct b
         end;
  try (discriminate H); eauto with not_gateway.

(** *** The text of the reply *)

Lemma add_text_Ok (blocks : list json) (text t : string) :
  BedrockClient.add_text text blocks = Ok t ->
  t = text +:+ Spec.join (map Spec.block_text blocks).
Proof.
  revert text. induction blocks as [|block rest IH]; intros text H; cbn in H.
  - injection H as <-. cbn. now rewrite append_empty_r.
  - apply bind_Ok in H as (has_text & Hin & H).
    apply bind_Ok in H as (text' & Hadd & H).
    apply IH in H. subst t. cbn [map Spec.join].
    rewrite <- append_assoc. f_equal.
    destruct block; cbn in Hin; try discriminate Hin;
      injection Hin as <-; unfold Spec.block_text; cbn [Spec.field].
    + destruct (substring_of "text" s); cbn in Hadd; [discriminate|].
      injection Hadd as <-. now rewrite append_empty_r.
    + destruct (existsb _ items); cbn in Hadd; [discriminate|].
      injection Hadd as <-. now rewrite append_empty_r.
    + destruct (dict_lookup "text" fields) as [v|] eqn:Hv; cbn in Hadd;
        rewrite ?Hv in Hadd; cbn in Hadd.
      * destruct v; cbn in Hadd; try discriminate. now injection Hadd as <-.
      * injection Hadd as <-. now rewrite append_empty_r.
Qed.

Lemma add_text_not_gateway (blocks : list json) (text : string) (e : exn) :
  BedrockClient.add_text text blocks = Raise e -> is_gateway_error e = false.
Proof.
  revert text. induction blocks as [|block rest IH]; intros text H; cbn in H.
  - discriminate.
  - apply bind_Raise in H as [H|(has_text & Hin & H)];
      [eauto with not_gateway|].
    apply bind_Raise in H as [H|(text' & Hadd & H)]; [|eauto].
    destruct has_text; raised H.
Qed.

#[local] Hint Resolve add_text_not_gateway : not_gateway.

(** A string that is looked at as a block contributes nothing. *)
Lemma join_strings (blocks : list json) :
  Forall (fun b => exists s, b = JStr s) blocks ->
  Spec.join (map Spec.block_text blocks) = "".
Proof.
  induction 1 as [|b rest [s ->] _ IH]; [reflexivity|].
  cbn [map Spec.join]. now rewrite IH.
Qed.

Lemma chars_strings (s : string) :
  Forall (fun b => exists s, b = JStr s) (chars s).
Proof. induction s; cbn; constructor; eauto. Qed.

Lemma keys_strings (d : list (string * json)) :
  Forall (fun b => exists s, b = JStr s) (map (fun kv => JStr (fst kv)) d).
Proof. induction d; cbn; constructor; eauto. Qed.

Lemma read_text_Ok (inner : json) (t : string) :
  BedrockClient.read_text inner = Ok t -> t = Spec.text_of inner.
Proof.
  unfold BedrockClient.read_text, Spec.text_of. intros H.
  apply bind_Ok in H as (has_output & Hout & H).
  apply bind_Ok in H as (has_message & Hmsg & H).
  destruct has_message.
  - apply bind_Ok in H as (output & Houtput & H).
    apply bind_Ok in H as (message & Hmessage & H).
    apply bind_Ok in H as (has_content & Hcontent & H).
    apply py_getitem_Ok in Houtput, Hmessage.
    cbn [Spec.walk]. rewrite Houtput, Hmessage.
    destruct has_content.
    + apply bind_Ok in H as (content & Hget & H).
      apply bind_Ok in H as (blocks & Hiter & H).
      apply py_getitem_Ok in Hget. rewrite Hget.
      apply add_text_Ok in H. cbn in H. subst t.
      destruct content; cbn in Hiter; try discriminate Hiter;
        injection Hiter as <-.
      * apply join_strings, chars_strings.
      * reflexivity.
      * apply join_strings, keys_strings.
    + injection H as <-. now rewrite (py_in_false _ _ Hcontent).
  - injection H as <-. cbn [Spec.walk].
    destruct has_output.
    + apply bind_Ok in Hmsg as (output & Houtput & Hmsg).
      apply py_getitem_Ok in Houtput. rewrite Houtput.
      now rewrite (py_in_false _ _ Hmsg).
    + now rewrite (py_in_false _ _ Hout).
Qed.

Lemma read_text_not_gateway (inner : json) (e : exn) :
  BedrockClient.read_text inner = Raise e -> is_gateway_error e = false.
Proof. unfold BedrockClient.read_text. intros H. raised H. Qed.

#[local] Hint Resolve read_text_not_gateway : not_gateway.

(** *** The envelope and the record *)

Section ReplyProperties.
Variable json_loads : string -> option json.

Local Abbreviation loads_or_raise := (BedrockClient.loads_or_raise json_loads).
Local Abbreviation unwrap := (BedrockClient.unwrap json_loads).
Local Abbreviation read_reply := (BedrockClient.read_reply json_loads).

Lemma loads_or_raise_Ok (s : string) (v : json) :
  loads_or_raise s = Ok v <-> json_loads s = Some v.
Proof.
  unfold BedrockClient.loads_or_raise.
  destruct (json_loads s); split; congruence.
Qed.

Lemma loads_or_raise_not_gateway (s : string) (e : exn) :
  loads_or_raise s = Raise e -> is_gateway_error e = false.
Proof.
  unfold BedrockClient.loads_or_raise.
  destruct (json_loads s); intros [=]; subst; reflexivity.
Qed.

Lemma unwrap_Ok (result inner : json) :
  unwrap result = Ok inner -> Spec.inner json_loads result = Some inner.
Proof.
  unfold BedrockClient.unwrap, Spec.inner. intros H.
  apply bind_Ok in H as (has_body & Hin & H).
  apply bind_Ok in H as (str_body & Hstr & H).
  destruct has_body.
  - apply bind_Ok in Hstr as (body & Hbody & Hstr).
    apply py_getitem_Ok in Hbody. rewrite Hbody.
    injection Hstr as <-.
    destruct body; try congruence.
    now apply loads_or_raise_Ok.
  - injection Hstr as <-. rewrite (py_in_false _ _ Hin). congruence.
Qed.

(** On an object the two agree in both directions. *)
Lemma unwrap_dict (fields : list (string * json)) (inner : json) :
  Spec.inner json_loads (JDict fields) = Some inner ->
  unwrap (JDict fields) = Ok inner.
Proof.
  unfold BedrockClient.unwrap, Spec.inner. cbn.
  destruct (dict_lookup "body" fields) as [body|]; cbn.
  - destruct body; cbn; try congruence.
    intros H. now apply loads_or_raise_Ok.
  - congruence.
Qed.

Lemma unwrap_not_gateway (result : json) (e : exn) :
  unwrap result = Raise e -> is_gateway_error e = false.
Proof.
  unfold BedrockClient.unwrap. intros H.
  apply bind_Raise in H as [H|(has_body & Hin & H)];
    [eauto with not_gateway|].
  apply bind_Raise in H as [H|(str_body & Hstr & H)].
  - destruct has_body; raised H.
  - destruct str_body; [|discriminate].
    eauto using loads_or_raise_not_gateway.
Qed.

(** What a reply that is read to the end went through. *)
Lemma read_reply_Ok (response : Response.t) (model_alias : string)
    (r : BedrockResponse.t) :
  read_reply response model_alias = Ok r ->
  Response.status_code response = 200 /\
  exists result usage metrics headers,
    json_loads (Response.text response) = Some result /\
    unwrap result = Ok (BedrockResponse.raw_response r) /\
    BedrockClient.read_text (BedrockResponse.raw_response r) =
      Ok (BedrockResponse.text r) /\
    py_get (BedrockResponse.raw_response r) "usage" (JDict []) = Ok usage /\
    py_get (BedrockResponse.raw_response r) "metrics" (JDict []) = Ok metrics /\
    py_get usage "totalTokens" (JInt 0) = Ok (BedrockResponse.tokens r) /\
    py_get usage "inputTokens" (JInt 0) = Ok (BedrockResponse.input_tokens r) /\
    py_get usage "outputTokens" (JInt 0) = Ok (BedrockResponse.output_tokens r) /\
    py_get metrics "latencyMs" (JInt 0) = Ok (BedrockResponse.latency_ms r) /\
    py_get result "headers" (JDict []) = Ok headers /\
    py_get headers "X-Request-ID" (JStr "unknown") =
      Ok (BedrockResponse.request_id r) /\
    py_get (BedrockResponse.raw_response r) "stopReason" (JStr "unknown") =
      Ok (BedrockResponse.stop_reason r) /\
    BedrockResponse.model r = model_alias.
Proof.
  unfold BedrockClient.read_reply. intros H.
  destruct (Z.eqb_spec (Response.status_code response) 200) as [Hs|Hs];
    cbn [negb] in H; [|discriminate].
  split; [assumption|].
  apply bind_Ok in H as (result & Hresult & H).
  apply bind_Ok in H as (inner & Hinner & H).
  apply bind_Ok in H as (text & Htext & H).
  apply bind_Ok in H as (usage & Husage & H).
  apply bind_Ok in H as (metrics & Hmetrics & H).
  apply bind_Ok in H as (tokens & Htokens & H).
  apply bind_Ok in H as (input_tokens & Hinput & H).
  apply bind_Ok in H as (output_tokens & Houtput & H).
  apply bind_Ok in H as (latency_ms & Hlatency & H).
  apply bind_Ok in H as (headers & Hheaders & H).
  apply bind_Ok in H as (request_id & Hid & H).
  apply bind_Ok in H as (stop_reason & Hstop & H).
  injection H as <-. cbn.
  apply loads_or_raise_Ok in Hresult.
  exists result, usage, metrics, headers. repeat split; assumption.
Qed.

(** C3: a reply raises the gateway error with a status code and a detail
    exactly when its status code is not 200, the status code of the error is
    that of the reply, and the detail is the [error] field of a body that
    reads as a JSON object with one, the text of the body otherwise.  So
    every status other than 200 raises it, and status 200 never does. *)
Theorem gateway_error_iff (response : Response.t) (model_alias : string)
    (status_code : Z) (detail : json) :
  read_reply response model_alias = Raise (GatewayError status_code detail)
  <->
  Response.status_code response <> 200 /\
  status_code = Response.status_code response /\
  detail = Spec.error_detail json_loads (Response.text response).
Proof.
  unfold BedrockClient.read_reply.
  destruct (Z.eqb_spec (Response.status_code response) 200) as [Hs|Hs];
    cbn [negb].
  - split; [|intros [Hne _]; contradiction].
    intros H. exfalso.
    assert (is_gateway_error (GatewayError status_code detail) = false);
      [|discriminate].
    raised H; eauto using loads_or_raise_not_gateway, unwrap_not_gateway.
  - assert (Hdetail :
      try_except
        (error_json ← loads_or_raise (Response.text response);
         py_get error_json "error" (JStr (Response.text response)))
        (JStr (Response.text response)) =
      Spec.error_detail json_loads (Response.text response)).
    { unfold BedrockClient.loads_or_raise, Spec.error_detail.
      destruct (json_loads (Response.text response)) as [error_json|];
        [|reflexivity].
      destruct error_json; cbn; try reflexivity.
      destruct (dict_lookup "error" fields); reflexivity. }
    rewrite Hdetail. split.
    + intros [= <- <-]. repeat split; assumption.
    + intros (_ & -> & ->). reflexivity.
Qed.

(** C4: when a reply is read to the end, its body reads as an envelope; the
    inner reply kept in the record is the reading of the [body] field of the
    envelope when that field is a string, and the envelope itself otherwise;
    and the text of the record is the texts of the blocks of
    [inner.output.message.content] put together in order, a block without a
    [text] field adding nothing. *)
Theorem read_reply_inner_and_text (response : Response.t)
    (model_alias : string) (r : BedrockResponse.t) :
  read_reply response model_alias = Ok r ->
  exists envelope,
    json_loads (Response.text response) = Some envelope /\
    Spec.inner json_loads envelope = Some (BedrockResponse.raw_response r) /\
    BedrockResponse.text r = Spec.text_of (BedrockResponse.raw_response r).
Proof.
  intros H. apply read_reply_Ok in H as (_ & envelope & usage & metrics &
    headers & Henv & Hinner & Htext & _).
  exists envelope. repeat split.
  - assumption.
  - now apply unwrap_Ok.
  - now apply read_text_Ok.
Qed.

(** C6: when a reply is read to the end, the request id of the record is
    [headers["X-Request-ID"]] of the envelope the body reads as, and
    ["unknown"] when the envelope has no [headers] or they have no such key,
    whether the inner reply is the envelope or was read out of its [body]. *)
Theorem read_reply_request_id (response : Response.t) (model_alias : string)
    (r : BedrockResponse.t) :
  read_reply response model_alias = Ok r ->
  exists envelope,
    json_loads (Response.text response) = Some envelope /\
    Spec.inner json_loads envelope = Some (BedrockResponse.raw_response r) /\
    BedrockResponse.request_id r = Spec.request_id_of envelope.
Proof.
  intros H. apply read_reply_Ok in H as (_ & envelope & usage & metrics &
    headers & Henv & Hinner & _ & _ & _ & _ & _ & _ & _ & Hheaders & Hid & _).
  exists envelope. repeat split.
  - assumption.
  - now apply unwrap_Ok.
  - apply py_get_Ok in Hheaders as (fields & -> & ->).
    unfold Spec.request_id_of. cbn [Spec.field].
    destruct (dict_lookup "headers" fields) as [h|]; cbn in Hid |- *.
    + apply py_get_Ok in Hid as (hfields & -> & ->). reflexivity.
    + now injection Hid as <-.
Qed.

(** *** Missing fields *)

Lemma read_text_absent (inner : json) :
  Spec.absent ["output"; "message"; "content"] inner = true ->
  BedrockClient.read_text inner = Ok "".
Proof.
  unfold BedrockClient.read_text. intros H.
  destruct inner as [| | | | | |fields]; try discriminate. cbn in H |- *.
  destruct (dict_lookup "output" fields) as [output|]; cbn; [|reflexivity].
  destruct output as [| | | | | |ofields]; try discriminate. cbn in H |- *.
  destruct (dict_lookup "message" ofields) as [message|]; cbn; [|reflexivity].
  destruct message as [| | | | | |mfields]; try discriminate. cbn in H |- *.
  destruct (dict_lookup "content" mfields); [discriminate|reflexivity].
Qed.

Lemma py_get_absent1 (k : string) (v d : json) :
  Spec.absent [k] v = true -> py_get v k d = Ok d.
Proof.
  destruct v as [| | | | | |fields]; try discriminate. cbn.
  destruct (dict_lookup k fields) as [x|]; [|reflexivity].
  destruct x; discriminate.
Qed.

Lemma py_get_absent2 (k1 k2 : string) (v d : json) :
  Spec.absent [k1; k2] v = true ->
  exists x, py_get v k1 (JDict []) = Ok x /\ py_get x k2 d = Ok d.
Proof.
  destruct v as [| | | | | |fields]; try discriminate. cbn.
  destruct (dict_lookup k1 fields) as [x|]; [|intros _; eauto].
  intros H. exists x. split; [reflexivity|].
  destruct x as [| | | | | |xfields]; try discriminate. cbn in H |- *.
  destruct (dict_lookup k2 xfields); [discriminate|reflexivity].
Qed.

(** A reply with status 200 on which every path the record is read from
    stops at a missing key (the empty object among them) is read to the end,
    with every field at its default. *)
Lemma absent_fields_default (response : Response.t) (model_alias : string)
    (envelope inner : json) :
  Response.status_code response = 200 ->
  json_loads (Response.text response) = Some envelope ->
  Spec.inner json_loads envelope = Some inner ->
  Spec.absent ["output"; "message"; "content"] inner = true ->
  Spec.absent ["usage"; "totalTokens"] inner = true ->
  Spec.absent ["usage"; "inputTokens"] inner = true ->
  Spec.absent ["usage"; "outputTokens"] inner = true ->
  Spec.absent ["metrics"; "latencyMs"] inner = true ->
  Spec.absent ["headers"; "X-Request-ID"] envelope = true ->
  Spec.absent ["stopReason"] inner = true ->
  read_reply response model_alias =
    Ok (BedrockResponse.mk "" (JInt 0) (JInt 0) (JInt 0) (JInt 0)
          (JStr "unknown") model_alias (JStr "unknown") inner).
Proof.
  intros Hs Henv Hinner Htext Htotal Hinput Houtput Hlatency Hid Hstop.
  unfold BedrockClient.read_reply. rewrite Hs. cbn [Z.eqb Pos.eqb negb].
  apply loads_or_raise_Ok in Henv. rewrite Henv. cbn [mbind outcome_bind].
  assert (Hunwrap : unwrap envelope = Ok inner).
  { destruct envelope; try discriminate. now apply unwrap_dict. }
  rewrite Hunwrap. cbn [mbind outcome_bind].
  rewrite (read_text_absent _ Htext). cbn [mbind outcome_bind].
  apply (py_get_absent2 _ _ _ (JInt 0)) in Htotal as (usage & Husage & Htotal).
  apply (py_get_absent2 _ _ _ (JInt 0)) in Hinput as (usage' & Husage' & Hinput).
  apply (py_get_absent2 _ _ _ (JInt 0)) in Houtput as (usage'' & Husage'' & Houtput).
  assert (usage' = usage) as -> by congruence.
  assert (usage'' = usage) as -> by congruence.
  apply (py_get_absent2 _ _ _ (JInt 0)) in Hlatency
    as (metrics & Hmetrics & Hlatency).
  apply (py_get_absent2 _ _ _ (JStr "unknown")) in Hid
    as (headers & Hheaders & Hid).
  rewrite Husage. cbn [mbind outcome_bind].
  rewrite Hmetrics. cbn [mbind outcome_bind].
  rewrite Htotal. cbn [mbind outcome_bind].
  rewrite Hinput. cbn [mbind outcome_bind].
  rewrite Houtput. cbn [mbind outcome_bind].
  rewrite Hlatency. cbn [mbind outcome_bind].
  rewrite Hheaders. cbn [mbind outcome_bind].
  rewrite Hid. cbn [mbind outcome_bind].
  rewrite (py_get_absent1 _ _ _ Hstop). reflexivity.
Qed.

(** C10: a reply with status 200 whose body does not read as JSON, or reads
    as an object whose [body] field is a string that does not read as JSON,
    raises the decode error of the reader: no record is returned, and the
    error is not the gateway error. *)
Theorem undecodable_reply_raises (response : Response.t)
    (model_alias : string) :
  Response.status_code response = 200 ->
  (json_loads (Response.text response) = None \/
   exists fields s,
     json_loads (Response.text response) = Some (JDict fields) /\
     dict_lookup "body" fields = Some (JStr s) /\
     json_loads s = None) ->
  read_reply response model_alias = Raise JSONDecodeError /\
  is_gateway_error JSONDecodeError = false.
Proof.
  intros Hs H. split; [|reflexivity].
  unfold BedrockClient.read_reply. rewrite Hs. cbn [Z.eqb Pos.eqb negb].
  unfold BedrockClient.loads_or_raise at 1.
  destruct H as [->|(fields & s & -> & Hbody & Hnone)]; [reflexivity|].
  cbn [mbind outcome_bind].
  unfold BedrockClient.unwrap, BedrockClient.loads_or_raise. cbn.
  rewrite Hbody. cbn. rewrite Hnone. reflexivity.
Qed.

End ReplyProperties.

Lemma walk_absent (path : list string) (v : json) :
  Spec.absent path v = true -> Spec.walk path v = None.
Proof.
  revert v. induction path as [|k rest IH]; intros v H; [discriminate|].
  destruct v as [| | | | | |fields]; try discriminate. cbn in H |- *.
  destruct (dict_lookup k fields) as [x|]; [now apply IH|reflexivity].
Qed.

(** A field whose path stops at a missing key has its default in the record
    of the specification. *)
Lemma at_or_absent (path : list string) (d v : json) :
  Spec.absent path v = true -> Spec.at_or path d v = d.
Proof. intros H. unfold Spec.at_or. now rewrite (walk_absent _ _ H). Qed.

Lemma text_of_absent (inner : json) :
  Spec.absent ["output"; "message"; "content"] inner = true ->
  Spec.text_of inner = "".
Proof. intros H. unfold Spec.text_of. now rewrite (walk_absent _ _ H). Qed.

(** *** Replies of the expected shape *)

Lemma add_text_blocks (blocks : list json) (text : string) :
  forallb Spec.block_ok blocks = true ->
  BedrockClient.add_text text blocks =
    Ok (text +:+ Spec.join (map Spec.block_text blocks)).
Proof.
  revert text. induction blocks as [|block rest IH]; intros text H.
  - cbn. now rewrite append_empty_r.
  - cbn in H. apply andb_prop in H as [Hblock Hrest].
    cbn [BedrockClient.add_text map Spec.join].
    rewrite <- append_assoc.
    destruct block as [| | | | | |fields]; try discriminate.
    unfold Spec.block_ok, Spec.optional, Spec.block_text in *.
    cbn in Hblock |- *.
    destruct (dict_lookup "text" fields) as [v|]; cbn.
    + destruct v; try discriminate. cbn. now apply IH.
    + rewrite append_empty_r. now apply IH.
Qed.

Lemma read_text_shaped (inner : json) :
  Spec.optional "output" Spec.output_ok inner = true ->
  Spec.is_dict inner = true ->
  BedrockClient.read_text inner = Ok (Spec.text_of inner).
Proof.
  unfold BedrockClient.read_text, Spec.text_of, Spec.optional.
  intros H Hdict.
  destruct inner as [| | | | | |fields]; try discriminate.
  cbn in H |- *.
  destruct (dict_lookup "output" fields) as [output|]; cbn; [|reflexivity].
  destruct output as [| | | | | |ofields]; try discriminate.
  unfold Spec.output_ok, Spec.optional in H. cbn in H |- *.
  destruct (dict_lookup "message" ofields) as [message|]; cbn; [|reflexivity].
  destruct message as [| | | | | |mfields]; try discriminate.
  unfold Spec.message_ok, Spec.optional in H. cbn in H |- *.
  destruct (dict_lookup "content" mfields) as [content|]; cbn; [|reflexivity].
  destruct content as [| | | | |blocks|]; try discriminate.
  cbn in H |- *. now rewrite (add_text_blocks blocks "" H).
Qed.

Lemma py_get_optional (k : string) (v : json) :
  Spec.is_dict v = true ->
  Spec.optional k Spec.is_dict v = true ->
  exists x,
    py_get v k (JDict []) = Ok x /\
    forall k' d, py_get x k' d = Ok (Spec.at_or [k; k'] d v).
Proof.
  unfold Spec.optional, Spec.at_or.
  destruct v as [| | | | | |fields]; try discriminate. cbn.
  intros _ H.
  destruct (dict_lookup k fields) as [x|].
  - exists x. split; [reflexivity|].
    destruct x as [| | | | | |xfields]; try discriminate.
    intros k' d. cbn. now destruct (dict_lookup k' xfields).
  - exists (JDict []). split; reflexivity.
Qed.

Lemma py_get_at_or (v : json) (k : string) (d : json) :
  Spec.is_dict v = true -> py_get v k d = Ok (Spec.at_or [k] d v).
Proof.
  destruct v as [| | | | | |fields]; try discriminate. intros _.
  unfold Spec.at_or. cbn. now destruct (dict_lookup k fields).
Qed.

Lemma request_id_of_at_or (envelope : json) :
  Spec.optional "headers" Spec.is_dict envelope = true ->
  Spec.request_id_of envelope =
    Spec.at_or ["headers"; "X-Request-ID"] (JStr "unknown") envelope.
Proof.
  unfold Spec.optional, Spec.request_id_of, Spec.at_or. cbn [Spec.walk].
  destruct (Spec.field "headers" envelope) as [h|]; [|reflexivity].
  destruct h as [| | | | | |hfields]; try discriminate. intros _. cbn.
  now destruct (dict_lookup "X-Request-ID" hfields).
Qed.

Section ShapedReply.
Variable json_loads : string -> option json.

(** A reply with status 200 whose envelope and inner reply have the expected
    shape is read to the end, into the record of the specification. *)
Lemma read_reply_shaped (response : Response.t) (model_alias : string)
    (envelope inner : json) :
  Response.status_code response = 200 ->
  json_loads (Response.text response) = Some envelope ->
  Spec.inner json_loads envelope = Some inner ->
  Spec.envelope_ok envelope = true ->
  Spec.inner_ok inner = true ->
  BedrockClient.read_reply json_loads response model_alias =
    Ok (Spec.record envelope inner model_alias).
Proof.
  intros Hs Henv Hinner Heok Hiok.
  unfold Spec.envelope_ok in Heok. unfold Spec.inner_ok in Hiok.
  apply andb_prop in Heok as [Hedict Hheaders].
  apply andb_prop in Hiok as [Hiok Hmetrics].
  apply andb_prop in Hiok as [Hiok Husage].
  apply andb_prop in Hiok as [Hidict Houtput].
  unfold BedrockClient.read_reply. rewrite Hs. cbn [Z.eqb Pos.eqb negb].
  apply loads_or_raise_Ok in Henv. rewrite Henv. cbn [mbind outcome_bind].
  assert (Hunwrap : BedrockClient.unwrap json_loads envelope = Ok inner).
  { destruct envelope; try discriminate. now apply unwrap_dict. }
  rewrite Hunwrap. cbn [mbind outcome_bind].
  rewrite (read_text_shaped _ Houtput Hidict). cbn [mbind outcome_bind].
  destruct (py_get_optional "usage" inner Hidict Husage)
    as (usage & -> & Hu).
  destruct (py_get_optional "metrics" inner Hidict Hmetrics)
    as (metrics & -> & Hm).
  destruct (py_get_optional "headers" envelope Hedict Hheaders)
    as (headers & Hh & Hid).
  cbn [mbind outcome_bind]. rewrite !Hu, Hm. cbn [mbind outcome_bind].
  rewrite Hh. cbn [mbind outcome_bind]. rewrite Hid. cbn [mbind outcome_bind].
  rewrite (py_get_at_or inner "stopReason" _ Hidict).
  cbn [mbind outcome_bind].
  unfold Spec.record. now rewrite (request_id_of_at_or envelope Hheaders).
Qed.

End ShapedReply.

(** ** The payload *)

(** C9: the [model] of the payload is the entry of the alias in the model map
    of the configuration when the alias is a key of the map, and the alias
    itself otherwise. *)
Theorem payload_model (self : BedrockClient.t) (message model : string)
    (max_tokens : Z) (temperature top_p : option json)
    (system : option string) (conversation_history : option (list json)) :
  Spec.field "model"
    (BedrockClient.payload self message model max_tokens temperature top_p
       system conversation_history) =
  Some (JStr match Config.model_map (BedrockClient.config self) !! model with
             | Some model_id => model_id
             | None => model
             end).
Proof.
  unfold BedrockClient.payload.
  destruct (nonempty system); cbn;
    destruct (Config.model_map (BedrockClient.config self) !! model);
    reflexivity.
Qed.

(** ** The properties on the sample inputs *)

(** Status 403 with the body [{"error":"forbidden"}]. *)
Lemma gateway_error_forbidden :
  BedrockClient.read_reply loads (Example.reply 403 Example.forbidden_body)
    "sonnet-4.5" =
  Raise (GatewayError 403 (JStr "forbidden")).
Proof.
  apply (proj2 (gateway_error_iff loads
                  (Example.reply 403 Example.forbidden_body) "sonnet-4.5"
                  403 (JStr "forbidden"))).
  split; [discriminate|]. split; reflexivity.
Defined.

(** Status 500 with a body that is not JSON. *)
Lemma gateway_error_raw_text :
  BedrockClient.read_reply loads (Example.reply 500 "internal failure")
    "sonnet-4.5" =
  Raise (GatewayError 500 (JStr "internal failure")).
Proof.
  apply (proj2 (gateway_error_iff loads
                  (Example.reply 500 "internal failure") "sonnet-4.5"
                  500 (JStr "internal failure"))).
  split; [discriminate|]. split; reflexivity.
Qed.

(** The envelope with the reply in its [body] string: the text is [hi], the
    total is [5], the stop reason [end_turn]. *)
Lemma read_reply_inner_and_text_witness :
  BedrockClient.read_reply loads (Example.reply 200 Example.wrapped_body)
    "sonnet-4.5" = Ok Example.wrapped_record /\
  exists envelope,
    loads Example.wrapped_body = Some envelope /\
    Spec.inner loads envelope = Some Example.wrapped_inner /\
    "hi" = Spec.text_of Example.wrapped_inner.
Proof.
  split; [reflexivity|].
  apply (read_reply_inner_and_text loads
           (Example.reply 200 Example.wrapped_body) "sonnet-4.5"
           Example.wrapped_record).
  reflexivity.
Defined.

(** The request id is the one of the envelope, not the one of the reply in
    its [body] string. *)
Lemma read_reply_request_id_witness :
  BedrockClient.read_reply loads (Example.reply 200 Example.two_ids_body)
    "sonnet-4.5" = Ok Example.two_ids_record /\
  exists envelope,
    loads Example.two_ids_body = Some envelope /\
    Spec.inner loads envelope =
      Some (JDict [("headers", JDict [("X-Request-ID", JStr "inner-2")])]) /\
    JStr "outer-1" = Spec.request_id_of envelope.
Proof.
  split; [reflexivity|].
  apply (read_reply_request_id loads
           (Example.reply 200 Example.two_ids_body) "sonnet-4.5"
           Example.two_ids_record).
  reflexivity.
Defined.

(** The empty object. *)
Lemma absent_fields_default_witness :
  loads "{}" = Some (JDict []) /\
  BedrockClient.read_reply loads (Example.reply 200 "{}") "sonnet-4.5" =
    Ok (Example.default_record "sonnet-4.5" (JDict [])).
Proof.
  split; [reflexivity|].
  apply (absent_fields_default loads (Example.reply 200 "{}") "sonnet-4.5"
           (JDict []) (JDict [])); reflexivity.
Defined.

(** An envelope whose [body] string is not JSON. *)
Lemma undecodable_reply_raises_witness :
  BedrockClient.read_reply loads
    (Example.reply 200 Example.broken_inner_body) "sonnet-4.5" =
    Raise JSONDecodeError /\
  is_gateway_error JSONDecodeError = false.
Proof.
  apply (undecodable_reply_raises loads
           (Example.reply 200 Example.broken_inner_body) "sonnet-4.5");
    [reflexivity|].
  right. exists [("body", JStr "not json")], "not json".
  repeat split; reflexivity.
Defined.

(** A body that is not JSON at all. *)
Lemma undecodable_body_raises :
  BedrockClient.read_reply loads (Example.reply 200 "internal failure")
    "sonnet-4.5" = Raise JSONDecodeError.
Proof. reflexivity. Qed.

(** An alias of the default map, and an identifier that is not in it. *)
Lemma payload_model_samples :
  Spec.field "model"
    (BedrockClient.payload Example.client "hello" "sonnet-4.5" 2000 None None
       None None) = Some (JStr "anthropic.claude-sonnet-4-5-v1:0") /\
  Spec.field "model"
    (BedrockClient.payload Example.client "hello" "custom.unmapped-id" 2000
       None None None None) = Some (JStr "custom.unmapped-id").
Proof. split; reflexivity. Qed.

(** * Further properties of the code *)

(** ** The settings file and the layers of the configuration *)

(** X1: what [save] writes, [from_file] loads back as the same
    configuration. *)
Theorem save_from_file (c : Config.t) :
  Config.from_file (Config.Yaml (Config.save c)) = Ok c.
Proof. destruct c. reflexivity. Qed.

(** X2: a settings file whose reading raises is treated by the constructor
    as a file that is not there: the configuration and the endpoint are the
    same. *)
Theorem unreadable_file_as_missing (urlparse_netloc : string -> string + string)
    (e : exn) (environ : gmap string string) (a : BedrockClient.args) :
  BedrockClient.init_config (Config.Unreadable e) environ a =
    BedrockClient.init_config Config.NoFile environ a /\
  BedrockClient.init urlparse_netloc (Config.Unreadable e) environ a =
    BedrockClient.init urlparse_netloc Config.NoFile environ a.
Proof. split; reflexivity. Qed.

(** X3: without a [config] argument, each of [gateway_url], [api_id] and
    [aws_profile] is the constructor argument when that is a non-empty
    string, else the environment variable when that is one, else what the
    settings file (or the default) gives. *)
Theorem optional_fields_layered (file : Config.config_file)
    (environ : gmap string string) (a : BedrockClient.args) :
  BedrockClient.arg_config a = None ->
  let config := BedrockClient.init_config file environ a in
  let persisted := try_except (Config.from_file file) Config.new in
  Config.gateway_url config =
    (if truthy (BedrockClient.arg_gateway_url a)
     then BedrockClient.arg_gateway_url a
     else if truthy (environ !! "BEDROCK_GATEWAY_URL")
          then environ !! "BEDROCK_GATEWAY_URL"
          else Config.gateway_url persisted) /\
  Config.api_id config =
    (if truthy (BedrockClient.arg_api_id a)
     then BedrockClient.arg_api_id a
     else if truthy (environ !! "BEDROCK_GATEWAY_API_ID")
          then environ !! "BEDROCK_GATEWAY_API_ID"
          else Config.api_id persisted) /\
  Config.aws_profile config =
    (if truthy (BedrockClient.arg_profile a)
     then BedrockClient.arg_profile a
     else if truthy (environ !! "AWS_PROFILE")
          then environ !! "AWS_PROFILE"
          else Config.aws_profile persisted).
Proof.
  intros Hno. cbv zeta. repeat split.
  - now apply init_config_gateway_url.
  - now apply init_config_api_id.
  - now apply init_config_aws_profile.
Qed.

Lemma optional_fields_layered_witness :
  let a :=
    {| BedrockClient.arg_gateway_url := Some "";
       BedrockClient.arg_api_id := Some "fromarg";
       BedrockClient.arg_region := None;
       BedrockClient.arg_profile := None;
       BedrockClient.arg_config := None;
       BedrockClient.arg_verbose := false |} in
  let config :=
    BedrockClient.init_config (Config.Yaml (Config.save Example.both_set))
      Example.staged_environ a in
  Config.gateway_url config = Some "https://x.example.com/prod/invoke" /\
  Config.api_id config = Some "fromarg" /\
  Config.aws_profile config = None.
Proof.
  exact (optional_fields_layered
           (Config.Yaml (Config.save Example.both_set))
           Example.staged_environ
           {| BedrockClient.arg_gateway_url := Some "";
              BedrockClient.arg_api_id := Some "fromarg";
              BedrockClient.arg_region := None;
              BedrockClient.arg_profile := None;
              BedrockClient.arg_config := None;
              BedrockClient.arg_verbose := false |} eq_refl).
Defined.

(** X4: without a [config] argument, the region is the constructor argument
    when that is a non-empty string; else the environment variable when it is
    set to something other than [us-east-1]; else what the settings file (or
    the default) gives, so that an environment value of [us-east-1] leaves a
    saved region in place. *)
Theorem region_layered (file : Config.config_file)
    (environ : gmap string string) (a : BedrockClient.args) :
  BedrockClient.arg_config a = None ->
  Config.region (BedrockClient.init_config file environ a) =
    match nonempty (BedrockClient.arg_region a),
          environ !! "BEDROCK_GATEWAY_REGION" with
    | Some region, _ => region
    | None, Some region =>
        if String.eqb region "us-east-1"
        then Config.region (try_except (Config.from_file file) Config.new)
        else region
    | None, None =>
        Config.region (try_except (Config.from_file file) Config.new)
    end.
Proof.
  intros Hno. rewrite (init_config_region file environ a Hno).
  destruct (nonempty (BedrockClient.arg_region a)); [reflexivity|].
  destruct (environ !! "BEDROCK_GATEWAY_REGION"); reflexivity.
Qed.

Lemma region_layered_witness :
  Config.region
    (BedrockClient.init_config (Config.Yaml (Config.save Example.derived))
       (<["BEDROCK_GATEWAY_REGION" := "us-east-1"]> Example.staged_environ)
       Example.no_args) = "ap-southeast-2".
Proof.
  exact (region_layered (Config.Yaml (Config.save Example.derived))
           (<["BEDROCK_GATEWAY_REGION" := "us-east-1"]> Example.staged_environ)
           Example.no_args eq_refl).
Defined.

(** ** The endpoint *)

Section EndpointExtras.
Variable urlparse_netloc : string -> string + string.

Local Abbreviation get_host := (Config.get_host urlparse_netloc).
Local Abbreviation init_endpoint :=
  (BedrockClient.init_endpoint urlparse_netloc).

Lemma init_endpoint_Ok (c : Config.t) (cl : BedrockClient.t) :
  init_endpoint c = Ok cl ->
  BedrockClient.config cl = c /\
  Config.get_full_url c = Ok (BedrockClient.gateway_url cl) /\
  get_host c = Ok (BedrockClient.host cl).
Proof.
  unfold BedrockClient.init_endpoint. intros H.
  destruct (Config.get_full_url c) as [url|e]; cbn in H.
  - destruct (get_host c) as [host|e]; cbn in H.
    + injection H as <-. repeat split.
    + destruct e; discriminate.
  - destruct e; discriminate.
Qed.

(** X5: a client that is constructed keeps the configuration it was resolved
    from, and its URL is never the empty string. *)
Theorem resolved_url_not_empty (c : Config.t) (cl : BedrockClient.t) :
  init_endpoint c = Ok cl ->
  BedrockClient.config cl = c /\ BedrockClient.gateway_url cl <> "".
Proof.
  intros H. apply init_endpoint_Ok in H as (Hc & Hurl & _).
  split; [assumption|].
  unfold Config.get_full_url in Hurl.
  destruct (nonempty (Config.gateway_url c)) as [url|] eqn:Hgw.
  - injection Hurl as <-. now apply nonempty_Some in Hgw.
  - destruct (nonempty (Config.api_id c)); [|discriminate].
    injection Hurl as <-. discriminate.
Qed.

(** X6: with [gateway_url] unset and [api_id] set, the URL is [https://],
    the host of [get_host], a slash, the stage and the path: the request goes
    to the host that is signed. *)
Theorem derived_url_on_host (c : Config.t) :
  truthy (Config.gateway_url c) = false ->
  truthy (Config.api_id c) = true ->
  exists host,
    get_host c = Ok host /\
    Config.get_full_url c =
      Ok ("https://" +:+ host +:+ "/" +:+ Config.stage c +:+ Config.path c).
Proof.
  intros Hgw%truthy_false [id Hid]%truthy_true.
  eexists. split.
  - unfold Config.get_host. rewrite Hid. reflexivity.
  - unfold Config.get_full_url. rewrite Hgw, Hid. f_equal. f_equal.
    rewrite !append_assoc. reflexivity.
Qed.

(** X7: whatever stops the resolution of the endpoint, the constructor
    raises a [ValueError] whose message is the message of the [ValueError]
    that [get_full_url] or [get_host] raised, a blank line, and the list of
    the three ways to configure the client. *)
Theorem resolution_error_message (c : Config.t) (e : exn) :
  init_endpoint c = Raise e ->
  exists msg,
    e = ValueError
          (msg +:+ nl +:+ nl +:+ BedrockClient.configuration_options) /\
    (Config.get_full_url c = Raise (ValueError msg) \/
     get_host c = Raise (ValueError msg)).
Proof.
  unfold BedrockClient.init_endpoint. intros H.
  destruct (Config.get_full_url c) as [url|e1] eqn:Hurl; cbn in H.
  - destruct (get_host c) as [host|e2] eqn:Hhost; cbn in H; [discriminate|].
    unfold Config.get_host in Hhost.
    destruct (nonempty (Config.api_id c)); [discriminate|].
    destruct (Config.gateway_url c) as [u|]; [|discriminate].
    destruct (urlparse_netloc u) as [msg|]; [|discriminate].
    injection Hhost as <-. injection H as <-. eauto.
  - unfold Config.get_full_url in Hurl.
    destruct (nonempty (Config.gateway_url c)); [discriminate|].
    destruct (nonempty (Config.api_id c)); [discriminate|].
    injection Hurl as <-. injection H as <-. eauto.
Qed.

(** X8: when no layer provides a gateway URL or an API id (no settings file
    or an unreadable one, neither variable set to a non-empty string, neither
    argument given) the constructor raises the [ValueError] that names both
    settings and the three ways to provide them. *)
Theorem nothing_configured (file : Config.config_file)
    (environ : gmap string string) (a : BedrockClient.args) :
  BedrockClient.arg_config a = None ->
  (file = Config.NoFile \/ exists e, file = Config.Unreadable e) ->
  truthy (environ !! "BEDROCK_GATEWAY_URL") = false ->
  truthy (environ !! "BEDROCK_GATEWAY_API_ID") = false ->
  truthy (BedrockClient.arg_gateway_url a) = false ->
  truthy (BedrockClient.arg_api_id a) = false ->
  BedrockClient.init urlparse_netloc file environ a =
    Raise (ValueError
      ("Either gateway_url or api_id must be configured." +:+ nl +:+
       "Set via environment variable BEDROCK_GATEWAY_URL or BEDROCK_GATEWAY_API_ID"
       +:+ nl +:+ nl +:+ BedrockClient.configuration_options)).
Proof.
  intros Hno Hfile Heu Hea Hau Haa.
  unfold BedrockClient.init, BedrockClient.init_endpoint, Config.get_full_url.
  assert (Hgw : nonempty (Config.gateway_url
                  (BedrockClient.init_config file environ a)) = None).
  { rewrite (init_config_gateway_url file environ a Hno), Hau, Heu.
    destruct Hfile as [->|[e ->]]; reflexivity. }
  assert (Hid : nonempty (Config.api_id
                  (BedrockClient.init_config file environ a)) = None).
  { rewrite (init_config_api_id file environ a Hno), Haa, Hea.
    destruct Hfile as [->|[e ->]]; reflexivity. }
  rewrite Hgw, Hid. cbn. rewrite <- !append_assoc. reflexivity.
Qed.

End EndpointExtras.

Lemma resolved_url_not_empty_witness :
  BedrockClient.config
    (BedrockClient.mk Example.derived
       "https://abc123.execute-api.ap-southeast-2.amazonaws.com/prod/invoke"
       "abc123.execute-api.ap-southeast-2.amazonaws.com") = Example.derived /\
  "https://abc123.execute-api.ap-southeast-2.amazonaws.com/prod/invoke" <> "".
Proof.
  exact (resolved_url_not_empty urlsplit_netloc Example.derived
           (BedrockClient.mk Example.derived
              "https://abc123.execute-api.ap-southeast-2.amazonaws.com/prod/invoke"
              "abc123.execute-api.ap-southeast-2.amazonaws.com")
           eq_refl).
Defined.

Lemma derived_url_on_host_witness :
  exists host,
    Config.get_host urlsplit_netloc Example.derived = Ok host /\
    Config.get_full_url Example.derived =
      Ok ("https://" +:+ host +:+ "/" +:+ "prod" +:+ "/invoke").
Proof.
  exact (derived_url_on_host urlsplit_netloc Example.derived eq_refl eq_refl).
Defined.

Lemma resolution_error_message_witness :
  exists msg,
    ValueError
      ("Invalid IPv6 URL" +:+ nl +:+ nl +:+ BedrockClient.configuration_options)
    = ValueError
        (msg +:+ nl +:+ nl +:+ BedrockClient.configuration_options) /\
    (Config.get_full_url Example.open_bracket = Raise (ValueError msg) \/
     Config.get_host urlsplit_netloc Example.open_bracket =
       Raise (ValueError msg)).
Proof.
  exact (resolution_error_message urlsplit_netloc Example.open_bracket _
           eq_refl).
Defined.

Lemma nothing_configured_witness :
  BedrockClient.init urlsplit_netloc (Config.Unreadable YAMLError)
    (<["BEDROCK_GATEWAY_URL" := ""]> ∅) Example.no_args =
    Raise (ValueError
      ("Either gateway_url or api_id must be configured." +:+ nl +:+
       "Set via environment variable BEDROCK_GATEWAY_URL or BEDROCK_GATEWAY_API_ID"
       +:+ nl +:+ nl +:+ BedrockClient.configuration_options)).
Proof.
  apply (nothing_configured urlsplit_netloc (Config.Unreadable YAMLError)
           (<["BEDROCK_GATEWAY_URL" := ""]> ∅) Example.no_args);
    try reflexivity.
  right. now exists YAMLError.
Defined.

(** ** The payload of [chat] *)

(** X9: the messages of the payload are the conversation history as given,
    followed by one message of role [user] whose content is the single text
    block of the message; no history and an empty history give the same. *)
Theorem payload_messages (self : BedrockClient.t) (message model : string)
    (max_tokens : Z) (temperature top_p : option json)
    (system : option string) (conversation_history : option (list json)) :
  Spec.field "messages"
    (BedrockClient.payload self message model max_tokens temperature top_p
       system conversation_history) =
  Some (JList (default [] conversation_history ++
               [JDict [("role", JStr "user");
                       ("content", JList [JDict [("text", JStr message)]])]])).
Proof.
  unfold BedrockClient.payload.
  destruct conversation_history as [[|h hs]|]; destruct (nonempty system);
    reflexivity.
Qed.

(** X10: the inference configuration of the payload always has [maxTokens],
    has [temperature] exactly when one is given and [topP] exactly when one
    is given, in this order, and nothing else. *)
Theorem payload_inference_config (self : BedrockClient.t)
    (message model : string) (max_tokens : Z)
    (temperature top_p : option json) (system : option string)
    (conversation_history : option (list json)) :
  Spec.field "inferenceConfig"
    (BedrockClient.payload self message model max_tokens temperature top_p
       system conversation_history) =
  Some (JDict
          (("maxTokens", JInt max_tokens) ::
           match temperature with
           | Some v => [("temperature", v)]
           | None => []
           end ++
           match top_p with
           | Some v => [("topP", v)]
           | None => []
           end)).
Proof.
  unfold BedrockClient.payload.
  destruct temperature, top_p, (nonempty system); reflexivity.
Qed.

(** X11: the payload has a [system] entry, the single text block of the
    system prompt, exactly when the prompt is a non-empty string: an empty
    prompt is left out like a missing one. *)
Theorem payload_system (self : BedrockClient.t) (message model : string)
    (max_tokens : Z) (temperature top_p : option json)
    (system : option string) (conversation_history : option (list json)) :
  Spec.field "system"
    (BedrockClient.payload self message model max_tokens temperature top_p
       system conversation_history) =
  match system with
  | Some (String c s) => Some (JList [JDict [("text", JStr (String c s))]])
  | _ => None
  end.
Proof.
  unfold BedrockClient.payload.
  destruct system as [[|c s]|]; reflexivity.
Qed.

(** ** More on the reply *)

Lemma py_get_at_or_Ok (v : json) (k : string) (d y : json) :
  py_get v k d = Ok y -> y = Spec.at_or [k] d v /\ Spec.is_dict v = true.
Proof.
  destruct v as [| | | | | |fields]; try discriminate. cbn.
  unfold Spec.at_or. cbn.
  destruct (dict_lookup k fields); intros [= <-]; split; reflexivity.
Qed.

Lemma py_get_at_or2_Ok (v : json) (k1 k2 : string) (d x y : json) :
  py_get v k1 (JDict []) = Ok x ->
  py_get x k2 d = Ok y ->
  y = Spec.at_or [k1; k2] d v.
Proof.
  destruct v as [| | | | | |fields]; try discriminate. cbn.
  unfold Spec.at_or. cbn.
  destruct (dict_lookup k1 fields) as [u|]; intros [= <-] H.
  - destruct u as [| | | | | |ufields]; try discriminate. cbn in H |- *.
    destruct (dict_lookup k2 ufields); now injection H as <-.
  - now injection H as <-.
Qed.

Lemma py_in_raises (k : string) (v : json) (e : exn) :
  py_in k v = Raise e -> e = TypeError.
Proof. destruct v; cbn; congruence. Qed.

(** A subscript behind its membership test does not raise [KeyError]. *)
Lemma py_getitem_guarded (k : string) (v : json) (e : exn) :
  py_in k v = Ok true -> py_getitem v k = Raise e -> e = TypeError.
Proof.
  destruct v; cbn; try congruence.
  destruct (dict_lookup k fields); congruence.
Qed.

Lemma py_iter_raises (v : json) (e : exn) :
  py_iter v = Raise e -> e = TypeError.
Proof. destruct v; cbn; congruence. Qed.

Lemma py_str_add_raises (text : string) (v : json) (e : exn) :
  py_str_add text v = Raise e -> e = TypeError.
Proof. destruct v; cbn; congruence. Qed.

Lemma py_get_raises (v : json) (k : string) (d : json) (e : exn) :
  py_get v k d = Raise e -> e = AttributeError.
Proof.
  destruct v; cbn; try congruence.
  destruct (dict_lookup k fields); congruence.
Qed.

Lemma add_text_raises (blocks : list json) (text : string) (e : exn) :
  BedrockClient.add_text text blocks = Raise e -> e = TypeError.
Proof.
  revert text. induction blocks as [|block rest IH]; intros text H; cbn in H.
  - discriminate.
  - apply bind_Raise in H as [H|(has_text & Hin & H)];
      [now apply py_in_raises in H|].
    apply bind_Raise in H as [H|(text' & Hadd & H)]; [|eauto].
    destruct has_text; [|discriminate].
    apply bind_Raise in H as [H|(v & Hv & H)].
    + eauto using py_getitem_guarded.
    + eauto using py_str_add_raises.
Qed.

Lemma read_text_raises (inner : json) (e : exn) :
  BedrockClient.read_text inner = Raise e -> e = TypeError.
Proof.
  unfold BedrockClient.read_text. intros H.
  apply bind_Raise in H as [H|(has_output & Hout & H)];
    [now apply py_in_raises in H|].
  apply bind_Raise in H as [H|(has_message & Hmsg & H)].
  - destruct has_output; [|discriminate].
    apply bind_Raise in H as [H|(output & Houtput & H)];
      eauto using py_getitem_guarded, py_in_raises.
  - destruct has_message; [|discriminate].
    assert (has_output = true) as ->.
    { destruct has_output; [reflexivity|discriminate]. }
    apply bind_Ok in Hmsg as (output' & Houtput' & Hmsg).
    apply bind_Raise in H as [H|(output & Houtput & H)];
      [eauto using py_getitem_guarded|].
    assert (output' = output) as -> by congruence.
    apply bind_Raise in H as [H|(message & Hmessage & H)];
      [eauto using py_getitem_guarded|].
    apply bind_Raise in H as [H|(has_content & Hcontent & H)];
      [now apply py_in_raises in H|].
    destruct has_content; [|discriminate].
    apply bind_Raise in H as [H|(content & Hget & H)];
      [eauto using py_getitem_guarded|].
    apply bind_Raise in H as [H|(blocks & Hiter & H)];
      eauto using py_iter_raises, add_text_raises.
Qed.

Section ReplyExtras.
Variable json_loads : string -> option json.

Local Abbreviation read_reply := (BedrockClient.read_reply json_loads).

(** Where the reader has read the string [body] of the envelope, what
    [unwrap] may still raise is the [TypeError] of a test or a subscript on
    something that is not an object. *)
Lemma unwrap_raises (result inner : json) (e : exn) :
  Spec.inner json_loads result = Some inner ->
  BedrockClient.unwrap json_loads result = Raise e ->
  e = TypeError.
Proof.
  unfold BedrockClient.unwrap, Spec.inner. intros Hinner H.
  apply bind_Raise in H as [H|(has_body & Hin & H)];
    [now apply py_in_raises in H|].
  apply bind_Raise in H as [H|(str_body & Hstr & H)].
  - destruct has_body; [|discriminate].
    apply bind_Raise in H as [H|(body & Hbody & H)]; [|discriminate].
    eauto using py_getitem_guarded.
  - destruct str_body as [s|]; [|discriminate].
    destruct has_body; [|discriminate].
    apply bind_Ok in Hstr as (body & Hbody & Hstr).
    apply py_getitem_Ok in Hbody. rewrite Hbody in Hinner.
    destruct body; try discriminate. injection Hstr as ->.
    unfold BedrockClient.loads_or_raise in H. rewrite Hinner in H.
    discriminate.
Qed.

Lemma read_reply_Ok_record (response : Response.t) (model_alias : string)
    (r : BedrockResponse.t) :
  read_reply response model_alias = Ok r ->
  exists envelope inner,
    json_loads (Response.text response) = Some envelope /\
    Spec.inner json_loads envelope = Some inner /\
    Spec.is_dict envelope = true /\
    Spec.is_dict inner = true /\
    r = Spec.record envelope inner model_alias.
Proof.
  intros H.
  apply read_reply_Ok in H
    as (_ & envelope & usage & metrics & headers & Henv & Hinner & Htext &
        Husage & Hmetrics & Htokens & Hinput & Houtput & Hlatency &
        Hheaders & Hid & Hstop & Hmodel).
  exists envelope, (BedrockResponse.raw_response r).
  apply unwrap_Ok in Hinner. apply read_text_Ok in Htext.
  pose proof (py_get_at_or2_Ok _ _ _ _ _ _ Husage Htokens) as Et.
  pose proof (py_get_at_or2_Ok _ _ _ _ _ _ Husage Hinput) as Ei.
  pose proof (py_get_at_or2_Ok _ _ _ _ _ _ Husage Houtput) as Eo.
  pose proof (py_get_at_or2_Ok _ _ _ _ _ _ Hmetrics Hlatency) as El.
  pose proof (py_get_at_or2_Ok _ _ _ _ _ _ Hheaders Hid) as Eid.
  apply py_get_at_or_Ok in Hstop as [Es Hidict].
  assert (Hopt : Spec.optional "headers" Spec.is_dict envelope = true).
  { unfold Spec.optional.
    destruct envelope as [| | | | | |efields]; try discriminate.
    cbn in Hheaders |- *.
    destruct (dict_lookup "headers" efields) as [h|]; [|reflexivity].
    injection Hheaders as <-. now destruct h. }
  apply py_get_at_or_Ok in Hheaders as [_ Hedict].
  repeat split; try assumption.
  rewrite <- (request_id_of_at_or envelope Hopt) in Eid.
  destruct r. cbn in *. unfold Spec.record, Spec.at_or. cbn. congruence.
Qed.

(** X12: a reply that is read to the end gives the record of the
    specification: every field of the record is what the walk down the inner
    reply (for the request id, down the envelope) finds, or its default. *)
Theorem accepted_reply_record (response : Response.t) (model_alias : string)
    (r : BedrockResponse.t) :
  read_reply response model_alias = Ok r ->
  exists envelope inner,
    json_loads (Response.text response) = Some envelope /\
    Spec.inner json_loads envelope = Some inner /\
    r = Spec.record envelope inner model_alias.
Proof.
  intros H. apply read_reply_Ok_record in H
    as (envelope & inner & ? & ? & _ & _ & ?).
  eauto.
Qed.

(** X13: once the JSON reader has returned, for the body and, where the
    envelope has a string [body], for that string, reading a reply with
    status 200 raises nothing but [TypeError] and [AttributeError]: every
    subscript is behind its membership test, so none raises a [KeyError]. *)
Theorem reply_exceptions (response : Response.t) (model_alias : string)
    (envelope inner : json) (e : exn) :
  Response.status_code response = 200 ->
  json_loads (Response.text response) = Some envelope ->
  Spec.inner json_loads envelope = Some inner ->
  read_reply response model_alias = Raise e ->
  e = TypeError \/ e = AttributeError.
Proof.
  intros Hs Henv Hinner.
  unfold BedrockClient.read_reply. rewrite Hs. cbn [Z.eqb Pos.eqb negb].
  apply loads_or_raise_Ok in Henv. rewrite Henv. cbn [mbind outcome_bind].
  intros H.
  apply bind_Raise in H as [H|(inner' & Hinner' & H)].
  { left. eauto using unwrap_raises. }
  apply bind_Raise in H as [H|(text & Htext & H)].
  { left. now apply read_text_raises in H. }
  right.
  repeat match type of H with
         | _ ≫= _ = Raise _ =>
             let x := fresh "x" in
             let Hx := fresh "Hx" in
             apply bind_Raise in H as [H|(x & Hx & H)];
             [now apply py_get_raises in H|]
         end.
  discriminate.
Qed.

(** X14: a reply with status 200 whose body reads as JSON that is not an
    object (a list, a string, a number, a boolean, null) is not accepted: it
    raises [TypeError] or [AttributeError]. *)
Theorem non_object_reply_raises (response : Response.t)
    (model_alias : string) (envelope : json) :
  Response.status_code response = 200 ->
  json_loads (Response.text response) = Some envelope ->
  Spec.is_dict envelope = false ->
  read_reply response model_alias = Raise TypeError \/
  read_reply response model_alias = Raise AttributeError.
Proof.
  intros Hs Henv Hdict.
  destruct (read_reply response model_alias) as [r|e] eqn:H.
  - apply read_reply_Ok_record in H
      as (envelope' & inner & Henv' & _ & Hdict' & _).
    congruence.
  - enough (e = TypeError \/ e = AttributeError) as [->| ->] by auto.
    revert H. unfold BedrockClient.read_reply.
    rewrite Hs. cbn [Z.eqb Pos.eqb negb].
    unfold BedrockClient.loads_or_raise at 1. rewrite Henv.
    cbn [mbind outcome_bind]. intros H.
    apply bind_Raise in H as [H|(inner & Hinner & H)].
    + left. unfold BedrockClient.unwrap in H.
      destruct envelope; try discriminate; cbn in H; try congruence.
      * destruct (substring_of "body" s); cbn in H; congruence.
      * destruct (existsb _ items); cbn in H; congruence.
    + apply bind_Raise in H as [H|(text & Htext & H)].
      * left. now apply read_text_raises in H.
      * right.
        repeat match type of H with
               | _ ≫= _ = Raise _ =>
                   let x := fresh "x" in
                   let Hx := fresh "Hx" in
                   apply bind_Raise in H as [H|(x & Hx & H)];
                   [now apply py_get_raises in H|]
               end.
        discriminate.
Qed.

End ReplyExtras.

(** *** Missing fields, one by one *)

Lemma request_id_of_absent (envelope : json) :
  Spec.absent ["headers"; "X-Request-ID"] envelope = true ->
  Spec.request_id_of envelope = JStr "unknown".
Proof.
  unfold Spec.request_id_of.
  destruct envelope as [| | | | | |fields]; try discriminate. cbn.
  destruct (dict_lookup "headers" fields) as [h|]; [|reflexivity].
  destruct h as [| | | | | |hfields]; try discriminate. cbn.
  now destruct (dict_lookup "X-Request-ID" hfields).
Qed.

Section MissingFields.
Variable json_loads : string -> option json.

Local Abbreviation read_reply := (BedrockClient.read_reply json_loads).

(** C5: a missing object or field, at any depth, gives the default of the
    field that is read through it and does not make the reply fail.  For a
    reply with status 200 whose body reads as an envelope with an inner
    reply:
    - when what is there has the expected shape (a field on the way that is
      present is an object, the content a list of blocks), the reply is read
      to the end, whichever fields are missing;
    - in every record the reply is read into, each field whose path stops at
      a missing key has its default: empty text, [0] for the three token
      counts and the latency, ["unknown"] for the request id and the stop
      reason, whatever the other fields hold;
    - when all seven paths stop at a missing key, as in the empty object,
      the reply is read to the end into the record of the seven defaults. *)
Theorem missing_fields_default (response : Response.t) (model_alias : string)
    (envelope inner : json) :
  Response.status_code response = 200 ->
  json_loads (Response.text response) = Some envelope ->
  Spec.inner json_loads envelope = Some inner ->
  (Spec.envelope_ok envelope = true ->
   Spec.inner_ok inner = true ->
   read_reply response model_alias =
     Ok (Spec.record envelope inner model_alias)) /\
  (forall r,
     read_reply response model_alias = Ok r ->
     (Spec.absent ["output"; "message"; "content"] inner = true ->
      BedrockResponse.text r = "") /\
     (Spec.absent ["usage"; "totalTokens"] inner = true ->
      BedrockResponse.tokens r = JInt 0) /\
     (Spec.absent ["usage"; "inputTokens"] inner = true ->
      BedrockResponse.input_tokens r = JInt 0) /\
     (Spec.absent ["usage"; "outputTokens"] inner = true ->
      BedrockResponse.output_tokens r = JInt 0) /\
     (Spec.absent ["metrics"; "latencyMs"] inner = true ->
      BedrockResponse.latency_ms r = JInt 0) /\
     (Spec.absent ["headers"; "X-Request-ID"] envelope = true ->
      BedrockResponse.request_id r = JStr "unknown") /\
     (Spec.absent ["stopReason"] inner = true ->
      BedrockResponse.stop_reason r = JStr "unknown")) /\
  (Spec.absent ["output"; "message"; "content"] inner = true ->
   Spec.absent ["usage"; "totalTokens"] inner = true ->
   Spec.absent ["usage"; "inputTokens"] inner = true ->
   Spec.absent ["usage"; "outputTokens"] inner = true ->
   Spec.absent ["metrics"; "latencyMs"] inner = true ->
   Spec.absent ["headers"; "X-Request-ID"] envelope = true ->
   Spec.absent ["stopReason"] inner = true ->
   read_reply response model_alias =
     Ok (BedrockResponse.mk "" (JInt 0) (JInt 0) (JInt 0) (JInt 0)
           (JStr "unknown") model_alias (JStr "unknown") inner)).
Proof.
  intros Hs Henv Hinner. split; [|split].
  - intros Heok Hiok. now apply read_reply_shaped.
  - intros r Hr.
    apply read_reply_Ok_record in Hr
      as (envelope' & inner' & Henv' & Hinner' & _ & _ & ->).
    assert (envelope' = envelope) as -> by congruence.
    assert (inner' = inner) as -> by congruence.
    unfold Spec.record.
    cbn [BedrockResponse.text BedrockResponse.tokens
         BedrockResponse.input_tokens BedrockResponse.output_tokens
         BedrockResponse.latency_ms BedrockResponse.request_id
         BedrockResponse.stop_reason].
    repeat split; intros Habsent.
    + now apply text_of_absent.
    + now apply at_or_absent.
    + now apply at_or_absent.
    + now apply at_or_absent.
    + now apply at_or_absent.
    + now apply request_id_of_absent.
    + now apply at_or_absent.
  - intros. now apply (absent_fields_default json_loads response model_alias
                         envelope inner).
Qed.

End MissingFields.

(** The reply [{"usage":{"totalTokens":5}}]: the total is [5], every other
    field has its default. *)
Lemma missing_fields_default_witness :
  exists r,
    BedrockClient.read_reply loads
      (Example.reply 200 Sample.total_only_body) "sonnet-4.5" = Ok r /\
    BedrockResponse.tokens r = JInt 5 /\
    BedrockResponse.text r = "" /\
    BedrockResponse.input_tokens r = JInt 0 /\
    BedrockResponse.output_tokens r = JInt 0 /\
    BedrockResponse.latency_ms r = JInt 0 /\
    BedrockResponse.request_id r = JStr "unknown" /\
    BedrockResponse.stop_reason r = JStr "unknown".
Proof.
  destruct (missing_fields_default loads
              (Example.reply 200 Sample.total_only_body) "sonnet-4.5"
              Sample.total_only_inner Sample.total_only_inner
              eq_refl eq_refl eq_refl) as (Hread & Hdefault & _).
  pose proof (Hread eq_refl eq_refl) as Hr.
  exists (Spec.record Sample.total_only_inner Sample.total_only_inner
            "sonnet-4.5").
  destruct (Hdefault _ Hr) as (Htext & _ & Hinput & Houtput & Hlatency &
                               Hid & Hstop).
  split; [exact Hr|]. split; [reflexivity|].
  split; [exact (Htext eq_refl)|]. split; [exact (Hinput eq_refl)|].
  split; [exact (Houtput eq_refl)|]. split; [exact (Hlatency eq_refl)|].
  split; [exact (Hid eq_refl)|exact (Hstop eq_refl)].
Defined.

Lemma py_get_cases (v : json) (k : string) (d : json) :
  py_get v k d =
    if Spec.is_dict v then Ok (Spec.at_or [k] d v) else Raise AttributeError.
Proof.
  destruct v as [| | | | | |fields]; try reflexivity.
  unfold Spec.at_or. cbn. now destruct (dict_lookup k fields).
Qed.

Lemma is_dict_at_or (v : json) (k : string) :
  Spec.is_dict v = true ->
  Spec.is_dict (Spec.at_or [k] (JDict []) v) = Spec.optional k Spec.is_dict v.
Proof.
  destruct v as [| | | | | |fields]; try discriminate. intros _.
  unfold Spec.at_or, Spec.optional. cbn.
  now destruct (dict_lookup k fields).
Qed.

Lemma add_text_bad_block (good rest : list json) (bad : json)
    (text : string) :
  forallb Spec.block_ok good = true ->
  Spec.is_dict bad = true ->
  Spec.optional "text" Spec.is_str bad = false ->
  BedrockClient.add_text text (good ++ bad :: rest) = Raise TypeError.
Proof.
  intros Hgood Hdict Htext. revert text.
  induction good as [|block good IH]; intros text.
  - destruct bad as [| | | | | |fields]; try discriminate.
    unfold Spec.optional in Htext. cbn in Htext |- *.
    destruct (dict_lookup "text" fields) as [v|]; [|discriminate].
    cbn. now destruct v.
  - cbn in Hgood. apply andb_prop in Hgood as [Hblock Hgood].
    cbn [app BedrockClient.add_text].
    destruct block as [| | | | | |fields]; try discriminate.
    unfold Spec.block_ok, Spec.optional in Hblock. cbn in Hblock |- *.
    destruct (dict_lookup "text" fields) as [v|]; cbn.
    + destruct v; try discriminate. cbn. now apply IH.
    + now apply IH.
Qed.

Lemma read_text_walk (inner content : json) :
  Spec.walk ["output"; "message"; "content"] inner = Some content ->
  BedrockClient.read_text inner =
    py_iter content ≫= BedrockClient.add_text "".
Proof.
  unfold BedrockClient.read_text. cbn [Spec.walk].
  destruct inner as [| | | | | |fields]; try discriminate. cbn.
  destruct (dict_lookup "output" fields) as [output|]; [|discriminate].
  destruct output as [| | | | | |ofields]; try discriminate. cbn.
  destruct (dict_lookup "message" ofields) as [message|]; [|discriminate].
  destruct message as [| | | | | |mfields]; try discriminate. cbn.
  destruct (dict_lookup "content" mfields) as [c|]; [|discriminate].
  now intros [= ->].
Qed.

Section ReplyFailures.
Variable json_loads : string -> option json.

Local Abbreviation read_reply := (BedrockClient.read_reply json_loads).

(** X15: the tolerance is for missing keys only.  In a reply with status 200
    whose envelope and inner reply are objects and whose text can be read, a
    [usage] or [metrics] of the inner reply, or a [headers] of the envelope,
    that is there and is not an object (null, say) makes the reply raise
    [AttributeError]. *)
Theorem non_object_field_raises (response : Response.t)
    (model_alias : string) (envelope inner : json) :
  Response.status_code response = 200 ->
  json_loads (Response.text response) = Some envelope ->
  Spec.inner json_loads envelope = Some inner ->
  Spec.is_dict envelope = true ->
  Spec.is_dict inner = true ->
  Spec.optional "output" Spec.output_ok inner = true ->
  Spec.optional "usage" Spec.is_dict inner &&
  Spec.optional "metrics" Spec.is_dict inner &&
  Spec.optional "headers" Spec.is_dict envelope = false ->
  read_reply response model_alias = Raise AttributeError.
Proof.
  intros Hs Henv Hinner Hedict Hidict Houtput Hbad.
  unfold BedrockClient.read_reply. rewrite Hs. cbn [Z.eqb Pos.eqb negb].
  apply loads_or_raise_Ok in Henv. rewrite Henv. cbn [mbind outcome_bind].
  assert (Hunwrap : BedrockClient.unwrap json_loads envelope = Ok inner).
  { destruct envelope; try discriminate. now apply unwrap_dict. }
  rewrite Hunwrap. cbn [mbind outcome_bind].
  rewrite (read_text_shaped _ Houtput Hidict). cbn [mbind outcome_bind].
  rewrite !(py_get_cases inner), !(py_get_cases envelope), Hidict, Hedict.
  cbn [mbind outcome_bind].
  rewrite !py_get_cases, !is_dict_at_or by assumption.
  destruct (Spec.optional "usage" Spec.is_dict inner); [|reflexivity].
  cbn [mbind outcome_bind].
  destruct (Spec.optional "metrics" Spec.is_dict inner); [|reflexivity].
  cbn [mbind outcome_bind].
  destruct (Spec.optional "headers" Spec.is_dict envelope); [|reflexivity].
  discriminate.
Qed.

(** X16: in a reply with status 200, a content block that is an object with
    a [text] that is not a string, behind blocks that are objects with a
    string [text] or none, makes the reply raise [TypeError], whatever
    follows the block. *)
Theorem non_string_text_raises (response : Response.t)
    (model_alias : string) (envelope inner : json)
    (good rest : list json) (bad : json) :
  Response.status_code response = 200 ->
  json_loads (Response.text response) = Some envelope ->
  Spec.inner json_loads envelope = Some inner ->
  Spec.is_dict envelope = true ->
  Spec.walk ["output"; "message"; "content"] inner =
    Some (JList (good ++ bad :: rest)) ->
  forallb Spec.block_ok good = true ->
  Spec.is_dict bad = true ->
  Spec.optional "text" Spec.is_str bad = false ->
  read_reply response model_alias = Raise TypeError.
Proof.
  intros Hs Henv Hinner Hedict Hwalk Hgood Hdict Htext.
  unfold BedrockClient.read_reply. rewrite Hs. cbn [Z.eqb Pos.eqb negb].
  apply loads_or_raise_Ok in Henv. rewrite Henv. cbn [mbind outcome_bind].
  assert (Hunwrap : BedrockClient.unwrap json_loads envelope = Ok inner).
  { destruct envelope; try discriminate. now apply unwrap_dict. }
  rewrite Hunwrap. cbn [mbind outcome_bind].
  rewrite (read_text_walk _ _ Hwalk). cbn [py_iter mbind outcome_bind].
  now rewrite (add_text_bad_block good rest bad "" Hgood Hdict Htext).
Qed.

(** X17: two replies that are read to the end with the same inner reply give
    the same record but for the request id, which is the one of each
    envelope. *)
Theorem same_inner_same_record (response1 response2 : Response.t)
    (model_alias : string) (r1 r2 : BedrockResponse.t) :
  read_reply response1 model_alias = Ok r1 ->
  read_reply response2 model_alias = Ok r2 ->
  BedrockResponse.raw_response r1 = BedrockResponse.raw_response r2 ->
  r2 = BedrockResponse.mk
         (BedrockResponse.text r1) (BedrockResponse.tokens r1)
         (BedrockResponse.input_tokens r1) (BedrockResponse.output_tokens r1)
         (BedrockResponse.latency_ms r1) (BedrockResponse.request_id r2)
         (BedrockResponse.model r1) (BedrockResponse.stop_reason r1)
         (BedrockResponse.raw_response r1).
Proof.
  intros H1 H2 Hraw.
  apply read_reply_Ok_record in H1 as (e1 & i1 & _ & _ & _ & _ & ->).
  apply read_reply_Ok_record in H2 as (e2 & i2 & _ & _ & _ & _ & ->).
  cbn in Hraw. subst i2. reflexivity.
Qed.

Variable post : string -> string -> json -> Response.t.

(** X18: the record [chat] returns names the alias the caller asked for in
    its [model], not the identifier the alias is mapped to, and is made of
    the reply to the payload posted to the URL of the client with its
    host. *)
Theorem chat_model_is_alias (self : BedrockClient.t) (message model : string)
    (max_tokens : Z) (temperature top_p : option json)
    (system : option string) (conversation_history : option (list json))
    (r : BedrockResponse.t) :
  BedrockClient.chat json_loads post self message model max_tokens
    temperature top_p system conversation_history = Ok r ->
  BedrockResponse.model r = model /\
  exists envelope,
    json_loads
      (Response.text
         (post (BedrockClient.gateway_url self) (BedrockClient.host self)
            (BedrockClient.payload self message model max_tokens temperature
               top_p system conversation_history))) = Some envelope /\
    Spec.inner json_loads envelope = Some (BedrockResponse.raw_response r).
Proof.
  unfold BedrockClient.chat, BedrockClient._send_request. intros H.
  apply read_reply_Ok_record in H as (envelope & inner & Henv & Hinner & _ & _ & ->).
  cbn. eauto.
Qed.

End ReplyFailures.

Lemma accepted_reply_record_witness :
  exists envelope inner,
    loads Example.wrapped_body = Some envelope /\
    Spec.inner loads envelope = Some inner /\
    Example.wrapped_record = Spec.record envelope inner "sonnet-4.5".
Proof.
  exact (accepted_reply_record loads
           (Example.reply 200 Example.wrapped_body) "sonnet-4.5"
           Example.wrapped_record eq_refl).
Defined.

(** A list is not an object: the reply [[]] raises [AttributeError]. *)
Lemma reply_exceptions_witness :
  AttributeError = TypeError \/ AttributeError = AttributeError.
Proof.
  exact (reply_exceptions loads (Example.reply 200 "[]") "sonnet-4.5"
           (JList []) (JList []) AttributeError
           eq_refl eq_refl eq_refl eq_refl).
Defined.

Lemma non_object_reply_raises_witness :
  BedrockClient.read_reply loads (Example.reply 200 "null") "sonnet-4.5" =
    Raise TypeError \/
  BedrockClient.read_reply loads (Example.reply 200 "null") "sonnet-4.5" =
    Raise AttributeError.
Proof.
  exact (non_object_reply_raises loads (Example.reply 200 "null")
           "sonnet-4.5" JNull eq_refl eq_refl eq_refl).
Defined.

Lemma non_object_field_raises_witness :
  BedrockClient.read_reply loads
    (Example.reply 200 Sample.null_usage_body) "sonnet-4.5" =
    Raise AttributeError.
Proof.
  exact (non_object_field_raises loads
           (Example.reply 200 Sample.null_usage_body) "sonnet-4.5"
           (JDict [("usage", JNull)]) (JDict [("usage", JNull)])
           eq_refl eq_refl eq_refl eq_refl eq_refl eq_refl eq_refl).
Defined.

Lemma non_string_text_raises_witness :
  BedrockClient.read_reply loads
    (Example.reply 200 Sample.number_text_body) "sonnet-4.5" =
    Raise TypeError.
Proof.
  exact (non_string_text_raises loads
           (Example.reply 200 Sample.number_text_body) "sonnet-4.5"
           Sample.number_text_inner Sample.number_text_inner
           [JDict [("text", JStr "a")]] [JDict [("text", JStr "b")]]
           (JDict [("text", JInt 5)])
           eq_refl eq_refl eq_refl eq_refl eq_refl eq_refl eq_refl eq_refl).
Defined.

Lemma same_inner_same_record_witness :
  Sample.other_ids_record =
    BedrockResponse.mk "" (JInt 0) (JInt 0) (JInt 0) (JInt 0)
      (JStr "outer-3") "sonnet-4.5" (JStr "unknown")
      (JDict [("headers", JDict [("X-Request-ID", JStr "inner-2")])]).
Proof.
  exact (same_inner_same_record loads
           (Example.reply 200 Example.two_ids_body)
           (Example.reply 200 Sample.other_ids_body) "sonnet-4.5"
           Example.two_ids_record Sample.other_ids_record
           eq_refl eq_refl eq_refl).
Defined.

Lemma chat_model_is_alias_witness :
  BedrockResponse.model Example.wrapped_record = "sonnet-4.5" /\
  exists envelope,
    loads Example.wrapped_body = Some envelope /\
    Spec.inner loads envelope = Some Example.wrapped_inner.
Proof.
  exact (chat_model_is_alias loads Sample.wrapped_post Example.client
           "hello" "sonnet-4.5" 2000 None None None None
           Example.wrapped_record eq_refl).
Defined.

(** ** The constructor in full, and the functions of the module *)

Lemma init_endpoint_raises_ValueError
    (urlparse_netloc : string -> string + string) (c : Config.t) (e : exn) :
  BedrockClient.init_endpoint urlparse_netloc c = Raise e ->
  exists msg, e = ValueError msg.
Proof.
  unfold BedrockClient.init_endpoint.
  destruct (Config.get_full_url c) as [url|e1] eqn:Hurl; cbn.
  - destruct (Config.get_host urlparse_netloc c) as [host|e2] eqn:Hhost; cbn;
      [discriminate|].
    unfold Config.get_host in Hhost.
    destruct (nonempty (Config.api_id c)); [discriminate|].
    destruct (Config.gateway_url c) as [u|]; [|discriminate].
    destruct (urlparse_netloc u); [|discriminate].
    injection Hhost as <-. intros [= <-]. eauto.
  - unfold Config.get_full_url in Hurl.
    destruct (nonempty (Config.gateway_url c)); [discriminate|].
    destruct (nonempty (Config.api_id c)); [discriminate|].
    injection Hurl as <-. intros [= <-]. eauto.
Qed.

Section ConstructorProperties.
Variable urlparse_netloc : string -> string + string.
Variable boto3_Session :
  gmap string string -> option string -> string + Aws.session.
Variable print_raises : list string -> string -> option string.

Local Abbreviation init :=
  (Construct.init urlparse_netloc boto3_Session print_raises).

(** X19: the constructor prints only with a verbose configuration and only
    once the identity check has answered: the line with the caller's ARN,
    then the line with the URL of the gateway.  On success both lines are
    out (none when not verbose) and the client returned is the one the
    endpoint was resolved for.  A constructor that raises has printed
    nothing, or, when it is writing the second line that raised, the first
    line only; it then fails with the message of the identity check. *)
Theorem constructor_output (file : Config.config_file)
    (environ : gmap string string) (a : BedrockClient.args)
    (out : list string) (res : Construct.failure + Construct.t) :
  init file environ a = (out, res) ->
  match res with
  | inl f =>
      out = [] \/
      exists c arn msg,
        BedrockClient.init urlparse_netloc file environ a = Ok c /\
        Config.verbose (BedrockClient.config c) = true /\
        out = ["✅ Authenticated as: " +:+ arn] /\
        print_raises out ("🌐 Gateway: " +:+ BedrockClient.gateway_url c) =
          Some msg /\
        f = Construct.failed_to_authenticate msg
  | inr c =>
      BedrockClient.init urlparse_netloc file environ a =
        Ok (Construct.client c) /\
      out =
        if Config.verbose (BedrockClient.config (Construct.client c))
        then ["✅ Authenticated as: " +:+ Construct.user_arn c;
              "🌐 Gateway: " +:+ BedrockClient.gateway_url (Construct.client c)]
        else []
  end.
Proof.
  unfold Construct.init.
  destruct (BedrockClient.init urlparse_netloc file environ a) as [c|e];
    [|intros [= <- <-]; now left].
  destruct (boto3_Session _ _) as [msg|session];
    [intros [= <- <-]; now left|].
  destruct (Aws.get_credentials session) as [msg|[credentials|]];
    try (intros [= <- <-]; now left).
  destruct (Aws.get_caller_identity session) as [msg|[arn|]];
    try (intros [= <- <-]; now left).
  destruct (Config.verbose (BedrockClient.config c)) eqn:Hverbose.
  - cbv zeta.
    destruct (print_raises [] _) as [msg|]; [intros [= <- <-]; now left|].
    destruct (print_raises [_] _) as [msg|] eqn:Hsecond.
    + intros [= <- <-]. right. exists c, arn, msg. repeat split; assumption.
    + intros [= <- <-]. cbn. rewrite Hverbose. split; reflexivity.
  - intros [= <- <-]. cbn. rewrite Hverbose. split; reflexivity.
Qed.

(** X20: the constructor fails in one of four ways: the [ValueError] of an
    endpoint that does not resolve, an exception of the AWS session passed
    on as it is, the [Exception] for missing credentials, or the [Exception]
    whose message is [Failed to authenticate with AWS: ] and the text of what
    the identity check raised. *)
Theorem constructor_failures (file : Config.config_file)
    (environ : gmap string string) (a : BedrockClient.args)
    (out : list string) (f : Construct.failure) :
  init file environ a = (out, inl f) ->
  (exists msg,
     f = Construct.Raised (ValueError msg) /\
     BedrockClient.init urlparse_netloc file environ a =
       Raise (ValueError msg)) \/
  (exists msg, f = Construct.Botocore msg) \/
  f = Construct.Exception Construct.no_credentials \/
  (exists msg,
     f = Construct.Exception ("Failed to authenticate with AWS: " +:+ msg)).
Proof.
  unfold Construct.init, Construct.failed_to_authenticate.
  destruct (BedrockClient.init urlparse_netloc file environ a) as [c|e] eqn:Hinit.
  - destruct (boto3_Session _ _) as [msg|session];
      [intros [= <- <-]; right; left; eauto|].
    destruct (Aws.get_credentials session) as [msg|[credentials|]].
    + intros [= <- <-]. right. left. eauto.
    + destruct (Aws.get_caller_identity session) as [msg|[arn|]].
      * intros [= <- <-]. right. right. right. eauto.
      * destruct (Config.verbose (BedrockClient.config c)); [|discriminate].
        cbv zeta.
        destruct (print_raises [] _) as [msg|];
          [intros [= <- <-]; right; right; right; eauto|].
        destruct (print_raises [_] _) as [msg|]; [|discriminate].
        intros [= <- <-]. right. right. right. eauto.
      * intros [= <- <-]. right. right. right. now exists "'Arn'".
    + intros [= <- <-]. right. right. left. reflexivity.
  - intros [= <- <-]. left.
    unfold BedrockClient.init in Hinit.
    destruct (init_endpoint_raises_ValueError _ _ _ Hinit) as [msg ->].
    eauto.
Qed.

Variable json_loads : string -> option json.
Variable post :
  gmap string string -> string -> string -> string -> json -> Response.t.

Local Abbreviation chat :=
  (Client.chat urlparse_netloc boto3_Session print_raises json_loads post).

(** X21: once [configure] has set the global configuration, the function
    [chat] of the module reads neither the settings file nor the environment
    itself: it answers the same whatever the settings file holds, and the
    same in two environments in which the AWS session and the signed POST,
    which read the environment on their own, behave the same. *)
Theorem configured_chat_ignores_layers (c : Config.t)
    (file file' : Config.config_file) (environ environ' : gmap string string)
    (message model : string) (kw : Client.kwargs) :
  boto3_Session environ = boto3_Session environ' ->
  post environ = post environ' ->
  chat {| Client._global_config := Some c; Client.settings_file := file |}
       environ message model kw =
  chat {| Client._global_config := Some c; Client.settings_file := file' |}
       environ' message model kw.
Proof.
  intros Hsession Hpost.
  unfold Client.chat, Construct.init, BedrockClient.init,
    BedrockClient.init_config.
  cbn [BedrockClient.arg_config Client._global_config Client.settings_file].
  now rewrite Hsession, Hpost.
Qed.

End ConstructorProperties.

(** X22: what [configure] saves, a new client finds again: with [save] set,
    and an environment that sets none of the gateway URL, the API id and the
    profile to a non-empty string and the region to nothing but [us-east-1],
    a constructor without arguments gets the configuration that [configure]
    has built and made the global one. *)
Theorem configure_saved_is_loaded
    (gateway_url api_id region profile : option string)
    (model_map : option (gmap string string)) (st : Client.state)
    (environ : gmap string string) :
  truthy (environ !! "BEDROCK_GATEWAY_URL") = false ->
  truthy (environ !! "BEDROCK_GATEWAY_API_ID") = false ->
  truthy (environ !! "AWS_PROFILE") = false ->
  default "us-east-1" (environ !! "BEDROCK_GATEWAY_REGION") = "us-east-1" ->
  let st' :=
    fst (Client.configure gateway_url api_id region profile model_map true st)
  in
  Client._global_config st' =
    Some (Client.configured gateway_url api_id region profile model_map) /\
  BedrockClient.init_config (Client.settings_file st') environ
    Example.no_args =
    Client.configured gateway_url api_id region profile model_map.
Proof.
  intros Hurl Hid Hprofile Hregion. cbn.
  split; [reflexivity|].
  set (c := Client.configured gateway_url api_id region profile model_map).
  unfold BedrockClient.init_config. cbn.
  rewrite Hurl, Hid, Hprofile, Hregion. cbn.
  now destruct c.
Qed.

(** X23: a model map given to [configure] replaces the default aliases
    rather than adding to them: with a map that is not empty, the payload of
    a client on the configured settings carries the entry of the map for an
    alias that is a key of it, and every other alias as it is, the default
    aliases among them. *)
Theorem configured_model_map (gateway_url api_id region profile : option string)
    (m : gmap string string) (url host message model : string)
    (max_tokens : Z) (temperature top_p : option json)
    (system : option string) (conversation_history : option (list json)) :
  m <> ∅ ->
  Spec.field "model"
    (BedrockClient.payload
       (BedrockClient.mk
          (Client.configured gateway_url api_id region profile (Some m))
          url host)
       message model max_tokens temperature top_p system
       conversation_history) =
  Some (JStr (default model (m !! model))).
Proof.
  intros Hm.
  assert (Hmap : Config.model_map
            (Client.configured gateway_url api_id region profile (Some m))
          = m).
  { unfold Client.configured. rewrite bool_decide_eq_false_2 by assumption.
    reflexivity. }
  unfold BedrockClient.payload. cbn [BedrockClient.config].
  rewrite Hmap.
  destruct (nonempty system); reflexivity.
Qed.

Lemma constructor_output_witness :
  BedrockClient.init urlsplit_netloc Config.NoFile Example.staged_environ
    {| BedrockClient.arg_gateway_url := None;
       BedrockClient.arg_api_id := None;
       BedrockClient.arg_region := None;
       BedrockClient.arg_profile := None;
       BedrockClient.arg_config := None;
       BedrockClient.arg_verbose := true |} =
    Ok (BedrockClient.mk
          (Config.set_verbose true
             (Config.set_api_id (Some "abc123") Config.new))
          "https://abc123.execute-api.us-east-1.amazonaws.com/prod/invoke"
          "abc123.execute-api.us-east-1.amazonaws.com") /\
  ["✅ Authenticated as: arn:aws:iam::123456789012:user/dev";
   "🌐 Gateway: https://abc123.execute-api.us-east-1.amazonaws.com/prod/invoke"]
  = ["✅ Authenticated as: " +:+ "arn:aws:iam::123456789012:user/dev";
     "🌐 Gateway: " +:+
     "https://abc123.execute-api.us-east-1.amazonaws.com/prod/invoke"].
Proof.
  exact (constructor_output urlsplit_netloc
           (fun _ _ => inr Sample.signed_in) (fun _ _ => None)
           Config.NoFile Example.staged_environ
           {| BedrockClient.arg_gateway_url := None;
              BedrockClient.arg_api_id := None;
              BedrockClient.arg_region := None;
              BedrockClient.arg_profile := None;
              BedrockClient.arg_config := None;
              BedrockClient.arg_verbose := true |}
           _
           (inr (Construct.mk
                   (BedrockClient.mk
                      (Config.set_verbose true
                         (Config.set_api_id (Some "abc123") Config.new))
                      "https://abc123.execute-api.us-east-1.amazonaws.com/prod/invoke"
                      "abc123.execute-api.us-east-1.amazonaws.com")
                   "AKIDEXAMPLE" "arn:aws:iam::123456789012:user/dev"))
           eq_refl).
Defined.

(** A standard output that takes one line and then no more: the constructor
    raises with the first line out. *)
Lemma constructor_second_print_raises :
  Construct.init urlsplit_netloc (fun _ _ => inr Sample.signed_in)
    Sample.one_line_only Config.NoFile Example.staged_environ
    {| BedrockClient.arg_gateway_url := None;
       BedrockClient.arg_api_id := None;
       BedrockClient.arg_region := None;
       BedrockClient.arg_profile := None;
       BedrockClient.arg_config := None;
       BedrockClient.arg_verbose := true |} =
  (["✅ Authenticated as: arn:aws:iam::123456789012:user/dev"],
   inl (Construct.Exception
          "Failed to authenticate with AWS: [Errno 32] Broken pipe")).
Proof. reflexivity. Qed.

Lemma constructor_failures_witness :
  (exists msg,
     Construct.Exception Construct.no_credentials =
       Construct.Raised (ValueError msg) /\
     BedrockClient.init urlsplit_netloc Config.NoFile Example.staged_environ
       Example.no_args = Raise (ValueError msg)) \/
  (exists msg,
     Construct.Exception Construct.no_credentials = Construct.Botocore msg) \/
  Construct.Exception Construct.no_credentials =
    Construct.Exception Construct.no_credentials \/
  (exists msg,
     Construct.Exception Construct.no_credentials =
       Construct.Exception ("Failed to authenticate with AWS: " +:+ msg)).
Proof.
  exact (constructor_failures urlsplit_netloc
           (fun _ _ => inr Sample.signed_out) (fun _ _ => None)
           Config.NoFile Example.staged_environ Example.no_args [] _ eq_refl).
Defined.

(** Two environments that differ in the variables of the gateway only, with
    a session and a gateway that do not look at them. *)
Lemma configured_chat_ignores_layers_witness :
  Client.chat urlsplit_netloc (fun _ _ => inr Sample.signed_in)
    (fun _ _ => None) loads (fun _ _ => Sample.wrapped_post)
    {| Client._global_config := Some Example.both_set;
       Client.settings_file := Config.NoFile |}
    ∅ "hello" "sonnet-4.5" Sample.no_kwargs =
  Client.chat urlsplit_netloc (fun _ _ => inr Sample.signed_in)
    (fun _ _ => None) loads (fun _ _ => Sample.wrapped_post)
    {| Client._global_config := Some Example.both_set;
       Client.settings_file := Config.Unreadable YAMLError |}
    Example.staged_environ "hello" "sonnet-4.5" Sample.no_kwargs.
Proof.
  exact (configured_chat_ignores_layers urlsplit_netloc
           (fun _ _ => inr Sample.signed_in) (fun _ _ => None) loads
           (fun _ _ => Sample.wrapped_post) Example.both_set
           Config.NoFile (Config.Unreadable YAMLError)
           ∅ Example.staged_environ "hello" "sonnet-4.5" Sample.no_kwargs
           eq_refl eq_refl).
Defined.

Lemma configure_saved_is_loaded_witness :
  let st' :=
    fst (Client.configure (Some "https://x.example.com/prod/invoke") None
           (Some "ap-southeast-2") None (Some Sample.custom_map) true
           Sample.fresh_state) in
  Client._global_config st' =
    Some (Client.configured (Some "https://x.example.com/prod/invoke") None
            (Some "ap-southeast-2") None (Some Sample.custom_map)) /\
  BedrockClient.init_config (Client.settings_file st')
    (<["BEDROCK_GATEWAY_STAGE" := "dev"]> ∅) Example.no_args =
    Client.configured (Some "https://x.example.com/prod/invoke") None
      (Some "ap-southeast-2") None (Some Sample.custom_map).
Proof.
  exact (configure_saved_is_loaded (Some "https://x.example.com/prod/invoke")
           None (Some "ap-southeast-2") None (Some Sample.custom_map)
           Sample.fresh_state (<["BEDROCK_GATEWAY_STAGE" := "dev"]> ∅)
           eq_refl eq_refl eq_refl eq_refl).
Defined.

(** After the configuration with the two aliases of [custom_map], the default
    alias [sonnet] is passed on as it is. *)
Lemma configured_model_map_witness :
  Spec.field "model"
    (BedrockClient.payload
       (BedrockClient.mk
          (Client.configured None None None None (Some Sample.custom_map))
          "https://x.example.com/prod/invoke" "x.example.com")
       "hello" "sonnet" 2000 None None None None) =
  Some (JStr "sonnet").
Proof.
  apply (configured_model_map None None None None Sample.custom_map
           "https://x.example.com/prod/invoke" "x.example.com" "hello"
           "sonnet" 2000 None None None None).
  intros H. apply (f_equal (fun m => m !! "sonnet-4.5")) in H.
  vm_compute in H. discriminate H.
Defined.
